(** * Reaction-time game: the game state machine of [main.cpp]

    The program is a set of interrupt handlers and timer callbacks that
    mutate a handful of globals.  The embedding below keeps one record for
    the globals and the mbed objects they own, writes every handler as the
    sequence of its statements (each statement a function on that record),
    and drives the handlers from timed events. *)

From Stdlib Require Import ZArith List String Bool Lia DecimalString.
Import ListNotations.
Open Scope Z_scope.

(** ** Machine integers *)

Definition UINT32_MAX : Z := 4294967295.

(** Conversion of a 64-bit count to [uint32_t]: reduction modulo 2^32. *)
Definition to_uint32 (x : Z) : Z := x mod 2 ^ 32.

(** [DEBOUNCE_DELAY_MS], line 8. *)
Definition DEBOUNCE_DELAY_MS : Z := 200.

(** [std::chrono::milliseconds(n)] on the microsecond time base of mbed. *)
Definition milliseconds (n : Z) : Z := 1000 * n.

(** ** The mbed objects the program owns *)

(** Modelled from the spec: the mbed [Timer] class is not part of the
    sources.  A stopwatch over the shared microsecond clock: [reset] zeroes
    the accumulated time and restarts the current slice, [start] opens a
    slice unless one is open, [stop] closes the slice and adds it,
    [elapsed_time] is the accumulated time plus the open slice. *)
Module Timer.

Record t : Type := mk {
  running : bool;   (* a slice is open *)
  since : Z;        (* clock value at which the slice was opened *)
  acc : Z           (* microseconds accumulated by closed slices *)
}.

Definition idle : t := mk false 0 0.

Definition slicetime (now : Z) (tm : t) : Z :=
  if running tm then now - since tm else 0.

Definition reset (now : Z) (tm : t) : t := mk (running tm) now 0.

Definition start (now : Z) (tm : t) : t :=
  if running tm then tm else mk true now (acc tm).

Definition stop (now : Z) (tm : t) : t :=
  mk false (since tm) (acc tm + slicetime now tm).

Definition elapsed_time (now : Z) (tm : t) : Z := acc tm + slicetime now tm.

End Timer.

(** Modelled from the spec: the mbed [Timeout] class is not part of the
    sources.  A one-shot: [None] when nothing is scheduled, [Some d] when
    the callback is due at clock value [d].  Attaching replaces what was
    scheduled; detaching an idle one-shot does nothing. *)
Definition Timeout : Type := option Z.

Definition Timeout_attach (now delay : Z) (_ : Timeout) : Timeout :=
  Some (now + delay).

Definition Timeout_detach (_ : Timeout) : Timeout := None.

(** Modelled from the spec: the mbed [Ticker] class is not part of the
    sources.  A repeating callback: [Some (p, d)] has period [p] and its
    next call due at [d]. *)
Definition Ticker : Type := option (Z * Z).

Definition Ticker_attach (now period : Z) (_ : Ticker) : Ticker :=
  Some (period, now + period).

Definition Ticker_detach (_ : Ticker) : Ticker := None.

(** ** Globals *)

(** [enum AppState], lines 39-45. *)
Inductive AppState : Type := PREGAME | START | GAME | RESULT | CHEATING.

Definition AppState_eqb (a b : AppState) : bool :=
  match a, b with
  | PREGAME, PREGAME | START, START | GAME, GAME
  | RESULT, RESULT | CHEATING, CHEATING => true
  | _, _ => false
  end.

(** Every global of the program, the microsecond clock the mbed objects
    share, and what the LCD shows (the lines drawn since the last clear,
    each with its row). *)
Record Sys : Type := mkSys {
  clock : Z;
  LCD : list (Z * string);
  debounce_user_button : Timeout;
  debounce_external_button : Timeout;
  user_button_debouncing : bool;
  external_button_debouncing : bool;
  green_led : bool;
  reaction_timer : Timer.t;
  random_delay : Timeout;
  led_ticker : Ticker;
  state : AppState;
  reaction_time : Z;
  fastest_time : Z;
  led_state : bool
}.

(** *** Assignments, one per field *)

Definition set_clock (v : Z) (s : Sys) : Sys :=
  mkSys v (LCD s) (debounce_user_button s) (debounce_external_button s)
    (user_button_debouncing s) (external_button_debouncing s) (green_led s)
    (reaction_timer s) (random_delay s) (led_ticker s) (state s)
    (reaction_time s) (fastest_time s) (led_state s).

Definition set_LCD (v : list (Z * string)) (s : Sys) : Sys :=
  mkSys (clock s) v (debounce_user_button s) (debounce_external_button s)
    (user_button_debouncing s) (external_button_debouncing s) (green_led s)
    (reaction_timer s) (random_delay s) (led_ticker s) (state s)
    (reaction_time s) (fastest_time s) (led_state s).

Definition set_debounce_user_button (v : Timeout) (s : Sys) : Sys :=
  mkSys (clock s) (LCD s) v (debounce_external_button s)
    (user_button_debouncing s) (external_button_debouncing s) (green_led s)
    (reaction_timer s) (random_delay s) (led_ticker s) (state s)
    (reaction_time s) (fastest_time s) (led_state s).

Definition set_debounce_external_button (v : Timeout) (s : Sys) : Sys :=
  mkSys (clock s) (LCD s) (debounce_user_button s) v
    (user_button_debouncing s) (external_button_debouncing s) (green_led s)
    (reaction_timer s) (random_delay s) (led_ticker s) (state s)
    (reaction_time s) (fastest_time s) (led_state s).

Definition set_user_button_debouncing (v : bool) (s : Sys) : Sys :=
  mkSys (clock s) (LCD s) (debounce_user_button s) (debounce_external_button s)
    v (external_button_debouncing s) (green_led s)
    (reaction_timer s) (random_delay s) (led_ticker s) (state s)
    (reaction_time s) (fastest_time s) (led_state s).

Definition set_external_button_debouncing (v : bool) (s : Sys) : Sys :=
  mkSys (clock s) (LCD s) (debounce_user_button s) (debounce_external_button s)
    (user_button_debouncing s) v (green_led s)
    (reaction_timer s) (random_delay s) (led_ticker s) (state s)
    (reaction_time s) (fastest_time s) (led_state s).

Definition set_green_led (v : bool) (s : Sys) : Sys :=
  mkSys (clock s) (LCD s) (debounce_user_button s) (debounce_external_button s)
    (user_button_debouncing s) (external_button_debouncing s) v
    (reaction_timer s) (random_delay s) (led_ticker s) (state s)
    (reaction_time s) (fastest_time s) (led_state s).

Definition set_reaction_timer (v : Timer.t) (s : Sys) : Sys :=
  mkSys (clock s) (LCD s) (debounce_user_button s) (debounce_external_button s)
    (user_button_debouncing s) (external_button_debouncing s) (green_led s)
    v (random_delay s) (led_ticker s) (state s)
    (reaction_time s) (fastest_time s) (led_state s).

Definition set_random_delay (v : Timeout) (s : Sys) : Sys :=
  mkSys (clock s) (LCD s) (debounce_user_button s) (debounce_external_button s)
    (user_button_debouncing s) (external_button_debouncing s) (green_led s)
    (reaction_timer s) v (led_ticker s) (state s)
    (reaction_time s) (fastest_time s) (led_state s).

Definition set_led_ticker (v : Ticker) (s : Sys) : Sys :=
  mkSys (clock s) (LCD s) (debounce_user_button s) (debounce_external_button s)
    (user_button_debouncing s) (external_button_debouncing s) (green_led s)
    (reaction_timer s) (random_delay s) v (state s)
    (reaction_time s) (fastest_time s) (led_state s).

Definition set_state (v : AppState) (s : Sys) : Sys :=
  mkSys (clock s) (LCD s) (debounce_user_button s) (debounce_external_button s)
    (user_button_debouncing s) (external_button_debouncing s) (green_led s)
    (reaction_timer s) (random_delay s) (led_ticker s) v
    (reaction_time s) (fastest_time s) (led_state s).

Definition set_reaction_time (v : Z) (s : Sys) : Sys :=
  mkSys (clock s) (LCD s) (debounce_user_button s) (debounce_external_button s)
    (user_button_debouncing s) (external_button_debouncing s) (green_led s)
    (reaction_timer s) (random_delay s) (led_ticker s) (state s)
    v (fastest_time s) (led_state s).

Definition set_fastest_time (v : Z) (s : Sys) : Sys :=
  mkSys (clock s) (LCD s) (debounce_user_button s) (debounce_external_button s)
    (user_button_debouncing s) (external_button_debouncing s) (green_led s)
    (reaction_timer s) (random_delay s) (led_ticker s) (state s)
    (reaction_time s) v (led_state s).

Definition set_led_state (v : bool) (s : Sys) : Sys :=
  mkSys (clock s) (LCD s) (debounce_user_button s) (debounce_external_button s)
    (user_button_debouncing s) (external_button_debouncing s) (green_led s)
    (reaction_timer s) (random_delay s) (led_ticker s) (state s)
    (reaction_time s) (fastest_time s) v.

(** *** Calls on the mbed objects, reading the shared clock *)

Definition LCD_Clear (s : Sys) : Sys := set_LCD [] s.

Definition LCD_DisplayStringAt (y : Z) (text : string) (s : Sys) : Sys :=
  set_LCD (LCD s ++ [(y, text)]) s.

Definition led_ticker_attach (period : Z) (s : Sys) : Sys :=
  set_led_ticker (Ticker_attach (clock s) period (led_ticker s)) s.

Definition led_ticker_detach (s : Sys) : Sys :=
  set_led_ticker (Ticker_detach (led_ticker s)) s.

Definition random_delay_attach (delay : Z) (s : Sys) : Sys :=
  set_random_delay (Timeout_attach (clock s) delay (random_delay s)) s.

Definition random_delay_detach (s : Sys) : Sys :=
  set_random_delay (Timeout_detach (random_delay s)) s.

Definition debounce_user_button_attach (delay : Z) (s : Sys) : Sys :=
  set_debounce_user_button
    (Timeout_attach (clock s) delay (debounce_user_button s)) s.

Definition reaction_timer_reset (s : Sys) : Sys :=
  set_reaction_timer (Timer.reset (clock s) (reaction_timer s)) s.

Definition reaction_timer_start (s : Sys) : Sys :=
  set_reaction_timer (Timer.start (clock s) (reaction_timer s)) s.

Definition reaction_timer_stop (s : Sys) : Sys :=
  set_reaction_timer (Timer.stop (clock s) (reaction_timer s)) s.

(** [sprintf] with [%u] of a [uint32_t]. *)
Definition print_u (n : Z) : string :=
  NilZero.string_of_uint (N.to_uint (Z.to_N n)).

(** ** The handlers *)

(** A function body without branches is the list of its statements, in
    source order; running it threads the record through them. *)
Definition Body : Type := list (Sys -> Sys).

Definition exec (b : Body) (s : Sys) : Sys :=
  fold_left (fun acc stmt => stmt acc) b s.

(** Lines 19-21 and 24-26. *)
Definition debounce_user_button_callback (s : Sys) : Sys :=
  set_user_button_debouncing false s.

Definition debounce_external_button_callback (s : Sys) : Sys :=
  set_external_button_debouncing false s.

(** Lines 101-107. *)
Definition start_pregame_body : Body :=
  [ set_state PREGAME;
    set_green_led false;
    led_ticker_attach (milliseconds 100);
    LCD_Clear;
    LCD_DisplayStringAt 40 "Press to start" ].

Definition start_pregame : Sys -> Sys := exec start_pregame_body.

(** [rand() % 4000 + 1000], line 116; [%] of C truncates toward zero. *)
Definition delay (r : Z) : Z := Z.rem r 4000 + 1000.

(** Lines 110-125; [r] is what [rand()] returns. *)
Definition start_game_body (r : Z) : Body :=
  [ set_state START;
    set_green_led false;
    led_ticker_detach;
    random_delay_attach (milliseconds (delay r));
    LCD_Clear;
    LCD_DisplayStringAt 40 "Wait..." ].

Definition start_game (r : Z) : Sys -> Sys := exec (start_game_body r).

(** Lines 128-137. *)
Definition on_random_delay_end_body : Body :=
  [ set_state GAME;
    set_green_led true;
    reaction_timer_reset;
    reaction_timer_start;
    LCD_Clear;
    LCD_DisplayStringAt 40 "GO!";
    LCD_DisplayStringAt 80 "Press button now!" ].

Definition on_random_delay_end : Sys -> Sys := exec on_random_delay_end_body.

(** Lines 140-157.  The elapsed time is a 64-bit count of microseconds;
    the cast to milliseconds truncates and the assignment to the
    [uint32_t] global reduces modulo 2^32. *)
Definition show_result_body : Body :=
  [ reaction_timer_stop;
    (fun s => set_reaction_time
       (to_uint32
          (Z.quot (Timer.elapsed_time (clock s) (reaction_timer s)) 1000)) s);
    (fun s => if reaction_time s <? fastest_time s
              then set_fastest_time (reaction_time s) s else s);
    set_state RESULT;
    LCD_Clear;
    (fun s => LCD_DisplayStringAt 40
       ("current: " ++ print_u (reaction_time s) ++ " ms") s);
    (fun s => LCD_DisplayStringAt 60
       ("Fastest: " ++ print_u (fastest_time s) ++ " ms") s) ].

Definition show_result : Sys -> Sys := exec show_result_body.

(** Lines 160-174; the last statement is the call of [start_pregame]. *)
Definition reset_game_body : Body :=
  [ set_state PREGAME;
    set_fastest_time UINT32_MAX;
    set_reaction_time 0;
    set_green_led false;
    reaction_timer_stop;
    random_delay_detach;
    led_ticker_detach;
    LCD_Clear ] ++ start_pregame_body.

Definition reset_game : Sys -> Sys := exec reset_game_body.

(** Lines 177-180. *)
Definition toggle_led_body : Body :=
  [ (fun s => set_led_state (negb (led_state s)) s);
    (fun s => set_green_led (led_state s) s) ].

Definition toggle_led : Sys -> Sys := exec toggle_led_body.

(** Lines 221-234. *)
Definition detect_cheating_body : Body :=
  [ set_state CHEATING;
    LCD_Clear;
    LCD_DisplayStringAt 40 "Cheating!";
    set_green_led false;
    led_ticker_detach;
    led_ticker_attach (milliseconds 500);
    reaction_timer_stop;
    random_delay_detach ].

Definition detect_cheating : Sys -> Sys := exec detect_cheating_body.

(** Lines 183-213. *)
Definition on_user_button_press (r : Z) (s : Sys) : Sys :=
  if user_button_debouncing s then s
  else
    let s := set_user_button_debouncing true s in
    let s := debounce_user_button_attach (milliseconds DEBOUNCE_DELAY_MS) s in
    match state s with
    | PREGAME => start_game r s
    | START => detect_cheating s
    | GAME => show_result s
    | RESULT => start_pregame s
    | CHEATING => start_pregame s
    end.

(** Lines 216-218. *)
Definition on_external_button_press (s : Sys) : Sys := reset_game s.

(** The initial values of the globals (lines 15-16, 47, 50-52), with the
    clock at zero and nothing scheduled. *)
Definition boot : Sys :=
  mkSys 0 [] None None false false false Timer.idle None None
        PREGAME 0 UINT32_MAX false.

(** [main], lines 65-77: the state in which it enters its idle loop, which
    only reads [state]. *)
Definition main : Sys := start_pregame (LCD_Clear boot).

(** ** Events

    The handlers are driven by the two falling-edge interrupts and by the
    expiry of whatever is scheduled.  An edge carries the clock value at
    which it arrives; an expiry happens at its own deadline.  A callback
    that is due runs before an edge arriving at or after its deadline, and
    of several scheduled callbacks the earliest runs first.  Every handler
    runs to completion. *)

Inductive Event : Type :=
| UserEdge (t r : Z)        (* BUTTON1 falls at [t]; [rand()] would give [r] *)
| ExternalEdge (t : Z)      (* PA_6 falls at [t] *)
| DebounceUserExpiry
| DebounceExternalExpiry
| RandomDelayExpiry
| LedTick.

(** [rand()] returns an [int] that is never negative. *)
Definition RAND_LIMIT : Z := 2147483647.

Definition pending (o : Timeout) : list Z :=
  match o with Some d => [d] | None => [] end.

Definition deadlines (s : Sys) : list Z :=
  pending (debounce_user_button s) ++ pending (debounce_external_button s)
  ++ pending (random_delay s)
  ++ match led_ticker s with Some (_, d) => [d] | None => [] end.

(** Nothing scheduled is due at or before [t]. *)
Definition nothing_due (t : Z) (s : Sys) : bool :=
  forallb (fun d => t <? d) (deadlines s).

(** [d] is not in the past and no other deadline precedes it. *)
Definition earliest (d : Z) (s : Sys) : bool :=
  (clock s <=? d) && forallb (fun d' => d <=? d') (deadlines s).

Definition edge_allowed (t : Z) (s : Sys) : bool :=
  (clock s <=? t) && nothing_due t s.

Definition step (e : Event) (s : Sys) : option Sys :=
  match e with
  | UserEdge t r =>
      if edge_allowed t s && (0 <=? r) && (r <=? RAND_LIMIT)
      then Some (on_user_button_press r (set_clock t s)) else None
  | ExternalEdge t =>
      if edge_allowed t s
      then Some (on_external_button_press (set_clock t s)) else None
  | DebounceUserExpiry =>
      match debounce_user_button s with
      | Some d =>
          if earliest d s
          then Some (debounce_user_button_callback
                       (set_debounce_user_button None (set_clock d s)))
          else None
      | None => None
      end
  | DebounceExternalExpiry =>
      match debounce_external_button s with
      | Some d =>
          if earliest d s
          then Some (debounce_external_button_callback
                       (set_debounce_external_button None (set_clock d s)))
          else None
      | None => None
      end
  | RandomDelayExpiry =>
      match random_delay s with
      | Some d =>
          if earliest d s
          then Some (on_random_delay_end
                       (set_random_delay None (set_clock d s)))
          else None
      | None => None
      end
  | LedTick =>
      match led_ticker s with
      | Some (p, d) =>
          if earliest d s
          then Some (toggle_led
                       (set_led_ticker (Some (p, d + p)) (set_clock d s)))
          else None
      | None => None
      end
  end.

Fixpoint run (es : list Event) (s : Sys) : option Sys :=
  match es with
  | [] => Some s
  | e :: es' =>
      match step e s with
      | Some s' => run es' s'
      | None => None
      end
  end.

(** An edge is accepted when its handler gets past the debounce test; the
    handler of the external button has no such test. *)
Definition accepted (e : Event) (s : Sys) : bool :=
  match e with
  | UserEdge _ _ => negb (user_button_debouncing s)
  | ExternalEdge _ => true
  | _ => false
  end.

Definition is_reset (e : Event) : bool :=
  match e with ExternalEdge _ => true | _ => false end.

(** The edge that ends a round: an accepted user press in [GAME]. *)
Definition completes_round (e : Event) (s : Sys) : bool :=
  match e with
  | UserEdge _ _ =>
      negb (user_button_debouncing s) && AppState_eqb (state s) GAME
  | _ => false
  end.

(** The transition table of the user button. *)
Definition next_phase (a : AppState) : AppState :=
  match a with
  | PREGAME => START
  | START => CHEATING
  | GAME => RESULT
  | RESULT => PREGAME
  | CHEATING => PREGAME
  end.

(** Runs a trace and keeps, newest first, the [reaction_time] recorded by
    each round completed since the last reset. *)
Fixpoint session (es : list Event) (s : Sys) (rounds : list Z)
  : option (Sys * list Z) :=
  match es with
  | [] => Some (s, rounds)
  | e :: es' =>
      match step e s with
      | Some s' =>
          session es' s'
            (if is_reset e then []
             else if completes_round e s then reaction_time s' :: rounds
             else rounds)
      | None => None
      end
  end.

(** Runs a trace that never leaves [GAME]. *)
Fixpoint run_armed (es : list Event) (s : Sys) : option Sys :=
  match es with
  | [] => Some s
  | e :: es' =>
      match step e s with
      | Some s' =>
          if AppState_eqb (state s') GAME then run_armed es' s' else None
      | None => None
      end
  end.

(** ** Sample states

    A round in progress, used to instantiate the theorems below: the user
    presses 5 ms after start-up, [rand()] gives 42, so the go-delay is
    1042 ms; the debounce window closes at 205 ms. *)

Definition or_boot (o : option Sys) : Sys :=
  match o with Some s => s | None => boot end.

Definition waiting_example : Sys :=
  Eval vm_compute in or_boot (run [UserEdge 5000 42; DebounceUserExpiry] main).

Definition cheating_example : Sys :=
  Eval vm_compute in or_boot (step (UserEdge 300000 7) waiting_example).

Definition armed_example : Sys :=
  Eval vm_compute in or_boot (step RandomDelayExpiry waiting_example).

Definition result_example : Sys :=
  Eval vm_compute in or_boot (step (UserEdge 1397000 7) armed_example).

Definition result_idle_example : Sys :=
  Eval vm_compute in or_boot (step DebounceUserExpiry result_example).

Definition pregame_again_example : Sys :=
  Eval vm_compute in or_boot (step (UserEdge 2000000 9) result_idle_example).

(** A press 2^32 ms after the go signal of [armed_example]. *)
Definition late_press_example : Sys :=
  Eval vm_compute in
    or_boot (step (UserEdge (1047000 + 4294967296000) 0) armed_example).

(** Two presses of the external button 2 ms apart, with a user press in
    between. *)
Definition external_then_user_example : Sys :=
  Eval vm_compute in or_boot (run [ExternalEdge 1000; UserEdge 2000 42] main).

Definition external_again_example : Sys :=
  Eval vm_compute in
    or_boot (step (ExternalEdge 3000) external_then_user_example).

(** The trace has no edge of the user button. *)
Definition no_user_edge (es : list Event) : bool :=
  forallb (fun e => match e with UserEdge _ _ => false | _ => true end) es.

(** The debounce window opened by a user press accepted at [d - 200 ms]:
    either still open, with the flag set and the one-shot due at [d], or
    closed by the one-shot, at [d]. *)
Definition user_window (d : Z) (s : Sys) : Prop :=
  (user_button_debouncing s = true /\ debounce_user_button s = Some d) \/
  (user_button_debouncing s = false /\ debounce_user_button s = None /\
   d <= clock s).

(** ** Statement order inside a handler

    [after k b s] is the state in which a handler with body [b], entered in
    [s], has run its first [k] statements. *)
Definition after (k : nat) (b : Body) (s : Sys) : Sys := exec (firstn k b) s.

(** The first statement of [b] cancels the go-delay. *)
Definition cancels_first (b : Body) : Prop :=
  forall s : Sys, random_delay (after 1 b s) = None.

(** Entered in START, [b] never passes through a point where the phase has
    already changed while the go-delay is still scheduled. *)
Definition no_stale_go (b : Body) : Prop :=
  forall (s : Sys) (k : nat),
    state s = START ->
    state (after k b s) <> START ->
    random_delay (after k b s) = None.

(** ** Reachable states *)

(** Invariant of the states a trace from [main] can reach. *)
Definition phase_inv (s : Sys) : Prop :=
  match state s with
  | PREGAME =>
      random_delay s = None /\ Timer.running (reaction_timer s) = false /\
      exists d, led_ticker s = Some (100000, d)
  | START =>
      random_delay s <> None /\ Timer.running (reaction_timer s) = false /\
      led_ticker s = None /\ green_led s = false
  | GAME =>
      random_delay s = None /\ led_ticker s = None /\ green_led s = true /\
      exists t0, reaction_timer s = Timer.mk true t0 0 /\ t0 <= clock s
  | RESULT =>
      random_delay s = None /\ Timer.running (reaction_timer s) = false /\
      led_ticker s = None
  | CHEATING =>
      random_delay s = None /\ Timer.running (reaction_timer s) = false /\
      exists d, led_ticker s = Some (500000, d)
  end.

Record Inv (s : Sys) : Prop := {
  inv_deadlines : Forall (fun d => clock s <= d) (deadlines s);
  inv_fastest : 0 <= fastest_time s <= UINT32_MAX;
  inv_reaction : 0 <= reaction_time s <= UINT32_MAX;
  inv_user_flag :
    user_button_debouncing s = true <-> debounce_user_button s <> None;
  inv_external_flag :
    external_button_debouncing s = false /\ debounce_external_button s = None;
  inv_phase : phase_inv s
}.

(** ** What the player sees and when

    The screen each phase draws on entry (lines 106, 121, 134-135, 153-156,
    224), as a function of the phase and of the two records. *)
Definition screen_of (s : Sys) : list (Z * string) :=
  match state s with
  | PREGAME => [(40, "Press to start"%string)]
  | START => [(40, "Wait..."%string)]
  | GAME => [(40, "GO!"%string); (80, "Press button now!"%string)]
  | RESULT =>
      [(40, ("current: " ++ print_u (reaction_time s) ++ " ms")%string);
       (60, ("Fastest: " ++ print_u (fastest_time s) ++ " ms")%string)]
  | CHEATING => [(40, "Cheating!"%string)]
  end.

(** The LED where it does not blink. *)
Definition steady_led (s : Sys) : Prop :=
  match state s with
  | START => green_led s = false
  | GAME | RESULT => green_led s = true
  | PREGAME | CHEATING => True
  end.

(** In START the debounce window, if open, closes before the go signal; in
    GAME it is closed. *)
Definition button_ready (s : Sys) : Prop :=
  match state s with
  | START =>
      forall db dg,
        debounce_user_button s = Some db -> random_delay s = Some dg ->
        db < dg
  | GAME => user_button_debouncing s = false
  | _ => True
  end.

Record Inv2 (s : Sys) : Prop := {
  inv_screen : LCD s = screen_of s;
  inv_led : steady_led s;
  inv_best : state s = RESULT -> fastest_time s <= reaction_time s;
  inv_ready : button_ready s;
  inv_debounce_bound :
    forall d, debounce_user_button s = Some d ->
              d <= clock s + milliseconds DEBOUNCE_DELAY_MS;
  inv_go_bound :
    forall d, random_delay s = Some d -> d < clock s + milliseconds 5000
}.

(** Runs a trace that never leaves phase [a]. *)
Fixpoint run_in (a : AppState) (es : list Event) (s : Sys) : option Sys :=
  match es with
  | [] => Some s
  | e :: es' =>
      match step e s with
      | Some s' =>
          if AppState_eqb (state s') a then run_in a es' s' else None
      | None => None
      end
  end.

(** Blink samples: the idle blink from start-up, and the state after a
    press accepted 5 ms after start-up once its debounce window is over. *)
Definition blink_example : Sys :=
  Eval vm_compute in or_boot (run [LedTick; LedTick; LedTick] main).

Definition pressed_example : Sys :=
  Eval vm_compute in or_boot (step (UserEdge 5000 42) main).

(** The phase after an event, read off the handlers: the table for an
    accepted user press, PREGAME for the external button, GAME for the
    go-delay callback, no change otherwise. *)
Definition phase_after (e : Event) (s : Sys) : AppState :=
  match e with
  | UserEdge _ _ =>
      if user_button_debouncing s then state s else next_phase (state s)
  | ExternalEdge _ => PREGAME
  | RandomDelayExpiry => GAME
  | DebounceUserExpiry | DebounceExternalExpiry | LedTick => state s
  end.

Definition dropped_press_example : Sys :=
  Eval vm_compute in or_boot (step (UserEdge 100000 7) pressed_example).

(** ** Start-up, statement by statement

    [main] above is the state in which the idle loop is entered when
    nothing interrupts the initialisation.  The two button interrupts are
    armed at lines 72 and 73, before [start_pregame] is called at line 77,
    so a handler can run between two statements of the initialisation.
    [main_body] lists those statements ([SetFont] and [SetTextColor] touch
    nothing that is modelled; arming and [srand] leave the record alone).
    A configuration is the number of statements [main] has run and the
    record. *)
Definition main_body : Body :=
  [ LCD_Clear;            (* line 69 *)
    (fun s => s);         (* line 72: user_button.fall *)
    (fun s => s);         (* line 73: external_button.fall *)
    (fun s => s) ]        (* line 74: srand *)
  ++ start_pregame_body.  (* line 77 *)

(** The statement count at which [main] is in its idle loop. *)
Definition main_done : nat := List.length main_body.

(** A falling edge runs a handler only once [fall] has attached it; the
    callbacks of the timing objects are attached with the objects. *)
Definition armed_at (pc : nat) (e : Event) : bool :=
  match e with
  | UserEdge _ _ => (2 <=? pc)%nat
  | ExternalEdge _ => (3 <=? pc)%nat
  | _ => true
  end.

Inductive Boot : Type :=
| Resume (t : Z)          (* [main] runs its next statement, at clock [t] *)
| Interrupt (e : Event).  (* a handler or callback runs to completion *)

Definition boot_step (b : Boot) (c : nat * Sys) : option (nat * Sys) :=
  match b with
  | Resume t =>
      match nth_error main_body (fst c) with
      | Some stmt =>
          if edge_allowed t (snd c)
          then Some (S (fst c), stmt (set_clock t (snd c))) else None
      | None => None
      end
  | Interrupt e =>
      if armed_at (fst c) e
      then match step e (snd c) with
           | Some s' => Some (fst c, s')
           | None => None
           end
      else None
  end.

Fixpoint boot_run (bs : list Boot) (c : nat * Sys) : option (nat * Sys) :=
  match bs with
  | [] => Some c
  | b :: bs' =>
      match boot_step b c with
      | Some c' => boot_run bs' c'
      | None => None
      end
  end.

(** No button edge is taken in [bs]. *)
Definition quiet_boot (bs : list Boot) : bool :=
  forallb (fun b => match b with
                    | Interrupt (UserEdge _ _) | Interrupt (ExternalEdge _) =>
                        false
                    | _ => true
                    end) bs.

(** What holds of the record while the initialisation runs with no button
    edge taken: the globals have their initial values, and the blink and
    the screen are as far as [main] has got. *)
Definition quiet_boot_state (pc : nat) (s : Sys) : Prop :=
  state s = PREGAME /\
  random_delay s = None /\
  debounce_user_button s = None /\
  debounce_external_button s = None /\
  user_button_debouncing s = false /\
  external_button_debouncing s = false /\
  Timer.running (reaction_timer s) = false /\
  reaction_time s = 0 /\
  fastest_time s = UINT32_MAX /\
  (if (pc <=? 6)%nat then led_ticker s = None
   else exists d, led_ticker s = Some (milliseconds 100, d) /\ clock s <= d) /\
  (pc = 8%nat -> LCD s = []) /\
  (pc = 9%nat -> LCD s = [(40, "Press to start"%string)]).

(** A start-up disturbed by a user press: the edge is taken when [main]
    has just run [state = PREGAME] inside [start_pregame] (five statements
    done), [rand()] gives 0, and [main] then finishes [start_pregame]. *)
Definition disturbed_boot : list Boot :=
  repeat (Resume 0) 5 ++ [Interrupt (UserEdge 10 0)] ++ repeat (Resume 20) 4.

Definition disturbed_start_example : Sys :=
  Eval vm_compute in
    match boot_run disturbed_boot (0%nat, boot) with
    | Some (_, s) => s
    | None => boot
    end.

(** Nine ticks and the end of the debounce window, then the go signal. *)
Definition disturbed_armed_example : Sys :=
  Eval vm_compute in
    or_boot (run ([LedTick; DebounceUserExpiry] ++ repeat LedTick 8
                  ++ [RandomDelayExpiry]) disturbed_start_example).

Definition disturbed_dark_example : Sys :=
  Eval vm_compute in or_boot (step LedTick disturbed_armed_example).

(** The trace has no button edge at all. *)
Definition no_edge (es : list Event) : bool :=
  forallb (fun e => match e with
                    | UserEdge _ _ | ExternalEdge _ => false
                    | _ => true
                    end) es.

(** A start-up disturbed before [start_pregame] is called: the user edge is
    taken after [srand] (four statements done). *)
Definition early_boot : list Boot :=
  repeat (Resume 0) 4 ++ [Interrupt (UserEdge 10 0)] ++ repeat (Resume 10) 5.

Definition early_start_example : Sys :=
  Eval vm_compute in
    match boot_run early_boot (0%nat, boot) with
    | Some (_, s) => s
    | None => boot
    end.

Definition early_armed_example : Sys :=
  Eval vm_compute in
    or_boot (run ([LedTick; DebounceUserExpiry] ++ repeat LedTick 9
                  ++ [RandomDelayExpiry]) early_start_example).

(** What every interleaving of [main] with the handlers keeps. *)
Record WInv (s : Sys) : Prop := {
  w_deadlines : Forall (fun d => clock s <= d) (deadlines s);
  w_fastest : 0 <= fastest_time s <= UINT32_MAX;
  w_reaction : 0 <= reaction_time s <= UINT32_MAX;
  w_user_flag :
    user_button_debouncing s = true <-> debounce_user_button s <> None;
  w_external :
    external_button_debouncing s = false /\ debounce_external_button s = None;
  w_bound :
    forall d, debounce_user_button s = Some d ->
              d <= clock s + milliseconds DEBOUNCE_DELAY_MS;
  w_order :
    forall db dg,
      debounce_user_button s = Some db -> random_delay s = Some dg -> db < dg;
  w_period : forall p d, led_ticker s = Some (p, d) -> 0 < p;
  w_phase :
    match state s with
    | GAME => user_button_debouncing s = false /\ random_delay s = None
    | RESULT | CHEATING => random_delay s = None
    | PREGAME | START => True
    end
}.

(** ** What one handler does to each global *)

Ltac break_sys s :=
  destruct s as [clk lcd dub deb ubd ebd led tmr rdl ltk st rt ft lst].

Lemma state_on_user_button_press (r : Z) (s : Sys) :
  state (on_user_button_press r s) =
  if user_button_debouncing s then state s else next_phase (state s).
Proof. break_sys s. destruct ubd, st; reflexivity. Qed.

Lemma on_user_button_press_dropped (r : Z) (s : Sys) :
  user_button_debouncing s = true -> on_user_button_press r s = s.
Proof. intros H. unfold on_user_button_press. now rewrite H. Qed.

Lemma step_UserEdge_inv (t r : Z) (s s' : Sys) :
  step (UserEdge t r) s = Some s' ->
  s' = on_user_button_press r (set_clock t s) /\
  clock s <= t /\ nothing_due t s = true /\ 0 <= r <= RAND_LIMIT.
Proof.
  cbn [step]. unfold edge_allowed.
  destruct (clock s <=? t) eqn:Hc; [|discriminate].
  destruct (nothing_due t s) eqn:Hn; [|discriminate].
  destruct (0 <=? r) eqn:H0; [|discriminate].
  destruct (r <=? RAND_LIMIT) eqn:H1; [|discriminate].
  cbn. intros [= <-]. repeat split; auto; lia.
Qed.

Lemma step_ExternalEdge_inv (t : Z) (s s' : Sys) :
  step (ExternalEdge t) s = Some s' ->
  s' = on_external_button_press (set_clock t s) /\
  clock s <= t /\ nothing_due t s = true.
Proof.
  cbn [step]. unfold edge_allowed.
  destruct (clock s <=? t) eqn:Hc; [|discriminate].
  destruct (nothing_due t s) eqn:Hn; [|discriminate].
  cbn. intros [= <-]. repeat split; auto; lia.
Qed.

Lemma AppState_eqb_eq (a b : AppState) : AppState_eqb a b = true <-> a = b.
Proof. destruct a, b; cbn; split; congruence. Qed.

Lemma show_result_eq (s : Sys) :
  show_result s =
  let tm := Timer.stop (clock s) (reaction_timer s) in
  let rt := to_uint32 (Z.quot (Timer.elapsed_time (clock s) tm) 1000) in
  let ft := if rt <? fastest_time s then rt else fastest_time s in
  mkSys (clock s)
        [(40, ("current: " ++ print_u rt ++ " ms")%string);
         (60, ("Fastest: " ++ print_u ft ++ " ms")%string)]
        (debounce_user_button s) (debounce_external_button s)
        (user_button_debouncing s) (external_button_debouncing s)
        (green_led s) tm (random_delay s) (led_ticker s) RESULT rt ft
        (led_state s).
Proof.
  break_sys s. cbv zeta. unfold show_result, exec, show_result_body.
  cbn [fold_left].
  cbn [reaction_timer_stop set_reaction_timer clock reaction_timer LCD
       debounce_user_button debounce_external_button user_button_debouncing
       external_button_debouncing green_led random_delay led_ticker state
       reaction_time fastest_time led_state set_reaction_time].
  match goal with |- context [if ?c then _ else _] => destruct c end;
    reflexivity.
Qed.

Lemma start_pregame_eq (s : Sys) :
  start_pregame s =
  mkSys (clock s) [(40, "Press to start"%string)]
        (debounce_user_button s) (debounce_external_button s)
        (user_button_debouncing s) (external_button_debouncing s)
        false (reaction_timer s) (random_delay s)
        (Some (100000, clock s + 100000)) PREGAME
        (reaction_time s) (fastest_time s) (led_state s).
Proof. reflexivity. Qed.

Lemma start_game_eq (r : Z) (s : Sys) :
  start_game r s =
  mkSys (clock s) [(40, "Wait..."%string)]
        (debounce_user_button s) (debounce_external_button s)
        (user_button_debouncing s) (external_button_debouncing s)
        false (reaction_timer s)
        (Some (clock s + milliseconds (delay r))) None START
        (reaction_time s) (fastest_time s) (led_state s).
Proof. reflexivity. Qed.

Lemma on_random_delay_end_eq (s : Sys) :
  on_random_delay_end s =
  mkSys (clock s) [(40, "GO!"%string); (80, "Press button now!"%string)]
        (debounce_user_button s) (debounce_external_button s)
        (user_button_debouncing s) (external_button_debouncing s)
        true (Timer.mk true (clock s) 0) (random_delay s) (led_ticker s) GAME
        (reaction_time s) (fastest_time s) (led_state s).
Proof.
  break_sys s. destruct tmr as [run0 since0 acc0]. destruct run0; reflexivity.
Qed.

Lemma reset_game_eq (s : Sys) :
  reset_game s =
  mkSys (clock s) [(40, "Press to start"%string)]
        (debounce_user_button s) (debounce_external_button s)
        (user_button_debouncing s) (external_button_debouncing s)
        false (Timer.stop (clock s) (reaction_timer s)) None
        (Some (100000, clock s + 100000)) PREGAME
        0 UINT32_MAX (led_state s).
Proof. reflexivity. Qed.

Lemma detect_cheating_eq (s : Sys) :
  detect_cheating s =
  mkSys (clock s) [(40, "Cheating!"%string)]
        (debounce_user_button s) (debounce_external_button s)
        (user_button_debouncing s) (external_button_debouncing s)
        false (Timer.stop (clock s) (reaction_timer s)) None
        (Some (500000, clock s + 500000)) CHEATING
        (reaction_time s) (fastest_time s) (led_state s).
Proof. reflexivity. Qed.

Lemma toggle_led_eq (s : Sys) :
  toggle_led s =
  mkSys (clock s) (LCD s)
        (debounce_user_button s) (debounce_external_button s)
        (user_button_debouncing s) (external_button_debouncing s)
        (negb (led_state s)) (reaction_timer s) (random_delay s)
        (led_ticker s) (state s)
        (reaction_time s) (fastest_time s) (negb (led_state s)).
Proof. reflexivity. Qed.

Lemma to_uint32_range (x : Z) : 0 <= to_uint32 x <= UINT32_MAX.
Proof.
  unfold to_uint32, UINT32_MAX.
  pose proof (Z.mod_pos_bound x (2 ^ 32) ltac:(lia)). lia.
Qed.

Lemma delay_range (r : Z) : 0 <= r -> 1000 <= delay r < 5000.
Proof.
  intros Hr. unfold delay.
  pose proof (Z.rem_bound_pos r 4000 Hr ltac:(lia)). lia.
Qed.

Lemma Inv_main : Inv main.
Proof.
  split.
  - repeat constructor. cbn. lia.
  - cbn. unfold UINT32_MAX. lia.
  - cbn. unfold UINT32_MAX. lia.
  - cbn. split; congruence.
  - cbn. split; reflexivity.
  - cbn. repeat split. now exists 100000.
Qed.

Lemma nothing_due_spec (t : Z) (s : Sys) :
  nothing_due t s = true <-> Forall (fun d => t < d) (deadlines s).
Proof.
  unfold nothing_due. rewrite forallb_forall, Forall_forall.
  split; intros H d Hd; specialize (H d Hd); lia.
Qed.

Lemma earliest_spec (d : Z) (s : Sys) :
  earliest d s = true <->
  clock s <= d /\ Forall (fun d' => d <= d') (deadlines s).
Proof.
  unfold earliest. rewrite andb_true_iff, forallb_forall, Forall_forall.
  split; intros [H1 H2]; split; try lia; intros x Hx; specialize (H2 x Hx); lia.
Qed.

Ltac inv_forall :=
  repeat match goal with
    | H : Forall _ (_ :: _) |- _ => inversion H; subst; clear H
    | H : Forall _ [] |- _ => clear H
    end.

Ltac sys_simpl :=
  unfold phase_inv, deadlines, milliseconds, DEBOUNCE_DELAY_MS,
    Timeout_attach in *;
  cbn [clock LCD debounce_user_button debounce_external_button
       user_button_debouncing external_button_debouncing green_led
       reaction_timer random_delay led_ticker state reaction_time
       fastest_time led_state set_clock set_debounce_user_button
       set_debounce_external_button set_random_delay set_led_ticker
       set_user_button_debouncing debounce_user_button_attach
       debounce_user_button_callback debounce_external_button_callback
       set_external_button_debouncing
       Timeout_attach pending app Timer.running Timer.since Timer.acc] in *.

Ltac solve_deadlines :=
  repeat match goal with
    | H : context [pending ?o] |- _ => destruct o; cbn [pending app] in *
    | |- context [pending ?o] => destruct o; cbn [pending app] in *
    | H : context [match ?k with Some _ => _ | None => _ end] |- _ =>
        is_var k; destruct k as [[? ?]|]
    | |- context [match ?k with Some _ => _ | None => _ end] =>
        is_var k; destruct k as [[? ?]|]
    end;
  cbn [pending app] in *; inv_forall;
  repeat (apply Forall_cons; [lia|]); apply Forall_nil.

Ltac finish_phase :=
  repeat match goal with
    | H : exists _, _ |- _ => destruct H
    | H : _ /\ _ |- _ => destruct H
    end;
  subst; repeat split; eauto; try congruence; try lia; try discriminate;
  try (eexists; split; [reflexivity|lia]).

Lemma Inv_UserEdge (t r : Z) (s : Sys) :
  Inv s -> clock s <= t -> nothing_due t s = true -> 0 <= r ->
  Inv (on_user_button_press r (set_clock t s)).
Proof.
  intros [Hd Hf Hr Hu [He1 He2] Hp] Hc Hn Hr0.
  apply nothing_due_spec in Hn.
  unfold on_user_button_press.
  change (user_button_debouncing (set_clock t s))
    with (user_button_debouncing s).
  destruct (user_button_debouncing s) eqn:Hub.
  - break_sys s. sys_simpl. subst.
    split; sys_simpl; auto; try lia.
    + eapply Forall_impl; [|exact Hn]. cbn; intros; lia.
    + destruct st; finish_phase.
  - cbv zeta.
    change (state (debounce_user_button_attach _ _)) with (state s).
    pose proof (delay_range r Hr0) as Hdel.
    destruct (state s) eqn:Hst;
      [ rewrite start_game_eq | rewrite detect_cheating_eq
      | rewrite show_result_eq | rewrite start_pregame_eq
      | rewrite start_pregame_eq ];
      break_sys s; sys_simpl; subst; cbv zeta; sys_simpl.
    all: try match goal with |- context [to_uint32 ?x] =>
           pose proof (to_uint32_range x); set (to_uint32 x) in * end.
    all: split; sys_simpl; try lia; try (split; congruence).
    all: try solve_deadlines.
    all: try (destruct (_ <? _); lia).
    all: finish_phase.
    all: solve_deadlines.
Qed.

Lemma Inv_ExternalEdge (t : Z) (s : Sys) :
  Inv s -> clock s <= t -> nothing_due t s = true ->
  Inv (on_external_button_press (set_clock t s)).
Proof.
  intros [Hd Hf Hr Hu [He1 He2] Hp] Hc Hn.
  apply nothing_due_spec in Hn.
  unfold on_external_button_press. rewrite reset_game_eq.
  break_sys s. sys_simpl. subst.
  split; sys_simpl; auto; try (unfold UINT32_MAX; lia).
  - solve_deadlines.
  - repeat split. eauto.
Qed.

Lemma step_expiry_inv (e : Event) (s s' : Sys) :
  step e s = Some s' ->
  match e with
  | DebounceUserExpiry =>
      exists d, debounce_user_button s = Some d /\ earliest d s = true /\
        s' = debounce_user_button_callback
               (set_debounce_user_button None (set_clock d s))
  | DebounceExternalExpiry =>
      exists d, debounce_external_button s = Some d /\ earliest d s = true /\
        s' = debounce_external_button_callback
               (set_debounce_external_button None (set_clock d s))
  | RandomDelayExpiry =>
      exists d, random_delay s = Some d /\ earliest d s = true /\
        s' = on_random_delay_end (set_random_delay None (set_clock d s))
  | LedTick =>
      exists p d, led_ticker s = Some (p, d) /\ earliest d s = true /\
        s' = toggle_led (set_led_ticker (Some (p, d + p)) (set_clock d s))
  | _ => True
  end.
Proof.
  destruct e; cbn [step]; auto.
  - destruct (debounce_user_button s) as [d|]; [|discriminate].
    destruct (earliest d s) eqn:E; [|discriminate].
    intros [= <-]. eauto.
  - destruct (debounce_external_button s) as [d|]; [|discriminate].
    destruct (earliest d s) eqn:E; [|discriminate].
    intros [= <-]. eauto.
  - destruct (random_delay s) as [d|]; [|discriminate].
    destruct (earliest d s) eqn:E; [|discriminate].
    intros [= <-]. eauto.
  - destruct (led_ticker s) as [[p d]|]; [|discriminate].
    destruct (earliest d s) eqn:E; [|discriminate].
    intros [= <-]. eauto.
Qed.

Lemma Inv_step (e : Event) (s s' : Sys) :
  Inv s -> step e s = Some s' -> Inv s'.
Proof.
  intros HI Hstep.
  destruct e as [t r|t| | | |].
  - apply step_UserEdge_inv in Hstep as (-> & Hc & Hn & Hr0).
    apply Inv_UserEdge; auto; lia.
  - apply step_ExternalEdge_inv in Hstep as (-> & Hc & Hn).
    now apply Inv_ExternalEdge.
  - apply step_expiry_inv in Hstep as (d & Hd & Hear & ->).
    apply earliest_spec in Hear as [Hc Hall].
    destruct HI as [Hdl Hf Hr Hu [He1 He2] Hp].
    break_sys s. sys_simpl. subst.
    split; sys_simpl; auto; try (split; congruence).
    + solve_deadlines.
    + destruct st; finish_phase.
  - apply step_expiry_inv in Hstep as (d & Hd & _).
    destruct HI as [_ _ _ _ [_ He2] _]. congruence.
  - apply step_expiry_inv in Hstep as (d & Hd & Hear & ->).
    apply earliest_spec in Hear as [Hc Hall].
    destruct HI as [Hdl Hf Hr Hu [He1 He2] Hp].
    rewrite on_random_delay_end_eq.
    break_sys s. sys_simpl. subst.
    split; sys_simpl; auto.
    + destruct st; finish_phase; solve_deadlines.
    + destruct st; finish_phase.
  - apply step_expiry_inv in Hstep as (p & d & Hd & Hear & ->).
    apply earliest_spec in Hear as [Hc Hall].
    destruct HI as [Hdl Hf Hr Hu [He1 He2] Hp].
    rewrite toggle_led_eq.
    break_sys s. sys_simpl. subst.
    split; sys_simpl; auto.
    + destruct st; finish_phase;
        repeat match goal with H : Some _ = Some _ |- _ =>
                 injection H as ? ?; subst end;
        solve_deadlines.
    + destruct st; finish_phase;
        match goal with H : Some _ = Some _ |- _ =>
          injection H as ? ?; subst; eauto end.
Qed.

Lemma Inv_run (es : list Event) :
  forall s s', Inv s -> run es s = Some s' -> Inv s'.
Proof.
  induction es as [|e es IH]; cbn [run]; intros s s' HI Hrun.
  - now injection Hrun as <-.
  - destruct (step e s) as [s1|] eqn:Hstep; [|discriminate].
    eauto using Inv_step.
Qed.

Lemma step_clock_mono (e : Event) (s s' : Sys) :
  step e s = Some s' -> clock s <= clock s'.
Proof.
  intros Hstep. destruct e as [t r|t| | | |].
  - apply step_UserEdge_inv in Hstep as (-> & Hc & _).
    unfold on_user_button_press.
    change (user_button_debouncing (set_clock t s))
      with (user_button_debouncing s).
    destruct (user_button_debouncing s); [exact Hc|].
    cbv zeta. change (state (debounce_user_button_attach _ _)) with (state s).
    destruct (state s); rewrite ?show_result_eq; exact Hc.
  - apply step_ExternalEdge_inv in Hstep as (-> & Hc & _). exact Hc.
  - apply step_expiry_inv in Hstep as (d & _ & Hear & ->).
    apply earliest_spec in Hear as [Hc _]. exact Hc.
  - apply step_expiry_inv in Hstep as (d & _ & Hear & ->).
    apply earliest_spec in Hear as [Hc _]. exact Hc.
  - apply step_expiry_inv in Hstep as (d & _ & Hear & ->).
    apply earliest_spec in Hear as [Hc _]. exact Hc.
  - apply step_expiry_inv in Hstep as (p & d & _ & Hear & ->).
    apply earliest_spec in Hear as [Hc _]. exact Hc.
Qed.

(** What a step does to the two records. *)
Lemma records_step (e : Event) (s s' : Sys) :
  step e s = Some s' ->
  if is_reset e then reaction_time s' = 0 /\ fastest_time s' = UINT32_MAX
  else if completes_round e s
       then fastest_time s' = Z.min (reaction_time s') (fastest_time s)
       else reaction_time s' = reaction_time s /\
            fastest_time s' = fastest_time s.
Proof.
  intros Hstep. destruct e as [t r|t| | | |]; cbn [is_reset completes_round].
  - apply step_UserEdge_inv in Hstep as (-> & _).
    unfold on_user_button_press.
    change (user_button_debouncing (set_clock t s))
      with (user_button_debouncing s).
    destruct (user_button_debouncing s); [split; reflexivity|].
    cbv zeta. change (state (debounce_user_button_attach _ _)) with (state s).
    destruct (state s); cbn [negb andb AppState_eqb];
      try (split; reflexivity).
    set (s1 := debounce_user_button_attach _ _).
    change (fastest_time s) with (fastest_time s1).
    rewrite show_result_eq. cbv zeta.
    cbn [fastest_time reaction_time].
    match goal with |- context [?a <? ?b] =>
      destruct (Z.ltb_spec a b); cbv iota; lia end.
  - apply step_ExternalEdge_inv in Hstep as (-> & _). split; reflexivity.
  - apply step_expiry_inv in Hstep as (d & _ & _ & ->). split; reflexivity.
  - apply step_expiry_inv in Hstep as (d & _ & _ & ->). split; reflexivity.
  - apply step_expiry_inv in Hstep as (d & _ & _ & ->).
    rewrite on_random_delay_end_eq. split; reflexivity.
  - apply step_expiry_inv in Hstep as (p & d & _ & _ & ->).
    split; reflexivity.
Qed.

Lemma fold_min_head (m c : Z) (cs : list Z) :
  c <= m ->
  Z.min c (fold_right Z.min m cs) = fold_right Z.min c cs.
Proof.
  intros Hc. induction cs as [|x cs IH]; cbn [fold_right]; lia.
Qed.

Lemma session_minimum (es : list Event) :
  forall s rounds s' rounds',
    Inv s ->
    fastest_time s = fold_right Z.min UINT32_MAX rounds ->
    Forall (fun c => c <= UINT32_MAX) rounds ->
    session es s rounds = Some (s', rounds') ->
    Inv s' /\
    fastest_time s' = fold_right Z.min UINT32_MAX rounds' /\
    Forall (fun c => c <= UINT32_MAX) rounds'.
Proof.
  induction es as [|e es IH]; cbn [session]; intros s rounds s' rounds' HI Hf Hall Hs.
  - injection Hs as <- <-. auto.
  - destruct (step e s) as [s1|] eqn:Hstep; [|discriminate].
    pose proof (Inv_step _ _ _ HI Hstep) as HI1.
    pose proof (records_step _ _ _ Hstep) as Hrec.
    apply IH in Hs; auto.
    + destruct (is_reset e); [cbn; tauto|].
      destruct (completes_round e s); cbn [fold_right]; [|destruct Hrec; congruence].
      rewrite Hrec, Hf. reflexivity.
    + destruct (is_reset e); [constructor|].
      destruct (completes_round e s); [|assumption].
      constructor; [|assumption]. apply HI1.
Qed.
(** While the phase stays GAME nothing touches the reaction timer, the LED
    or the (detached) blink. *)
Lemma armed_step (e : Event) (s s' : Sys) :
  Inv s -> state s = GAME -> step e s = Some s' -> state s' = GAME ->
  reaction_timer s' = reaction_timer s /\ green_led s' = green_led s.
Proof.
  intros HI Hst Hstep Hst'.
  pose proof (inv_phase _ HI) as Hp. unfold phase_inv in Hp.
  rewrite Hst in Hp. destruct Hp as (Hrd & Hlt & _).
  destruct e as [t r|t| | | |].
  - apply step_UserEdge_inv in Hstep as (-> & _).
    rewrite state_on_user_button_press in Hst'.
    change (user_button_debouncing (set_clock t s))
      with (user_button_debouncing s) in Hst'.
    change (state (set_clock t s)) with (state s) in Hst'.
    unfold on_user_button_press.
    change (user_button_debouncing (set_clock t s))
      with (user_button_debouncing s).
    destruct (user_button_debouncing s); [split; reflexivity|].
    rewrite Hst in Hst'. discriminate.
  - apply step_ExternalEdge_inv in Hstep as (-> & _). discriminate.
  - apply step_expiry_inv in Hstep as (d & _ & _ & ->). split; reflexivity.
  - apply step_expiry_inv in Hstep as (d & _ & _ & ->). split; reflexivity.
  - apply step_expiry_inv in Hstep as (d & Hd & _). congruence.
  - apply step_expiry_inv in Hstep as (p & d & Hd & _). congruence.
Qed.

Lemma run_armed_keeps_timer (mid : list Event) :
  forall s s',
    Inv s -> state s = GAME -> run_armed mid s = Some s' ->
    Inv s' /\ state s' = GAME /\ clock s <= clock s' /\
    reaction_timer s' = reaction_timer s /\ green_led s' = green_led s.
Proof.
  induction mid as [|e mid IH]; cbn [run_armed]; intros s s' HI Hst Hrun.
  - injection Hrun as <-.
    split; [exact HI|]. split; [exact Hst|]. split; [lia|].
    split; reflexivity.
  - destruct (step e s) as [s1|] eqn:Hstep; [|discriminate].
    destruct (AppState_eqb (state s1) GAME) eqn:Hg; [|discriminate].
    apply AppState_eqb_eq in Hg.
    pose proof (Inv_step _ _ _ HI Hstep) as HI1.
    pose proof (armed_step _ _ _ HI Hst Hstep Hg) as [Ht Hl].
    pose proof (step_clock_mono _ _ _ Hstep) as Hc.
    destruct (IH _ _ HI1 Hg Hrun) as (HI' & Hst' & Hc' & Ht' & Hl').
    split; [exact HI'|]. split; [exact Hst'|]. split; [lia|].
    split; congruence.
Qed.

Lemma reaction_time_show_result (s : Sys) (t0 : Z) :
  reaction_timer s = Timer.mk true t0 0 ->
  reaction_time (show_result s) = to_uint32 (Z.quot (clock s - t0) 1000) /\
  Timer.running (reaction_timer (show_result s)) = false /\
  Timer.elapsed_time (clock s) (reaction_timer (show_result s))
    = clock s - t0.
Proof.
  intros Ht. rewrite show_result_eq. cbv zeta.
  cbn [reaction_time reaction_timer]. rewrite Ht.
  unfold Timer.elapsed_time, Timer.stop, Timer.slicetime.
  cbn [Timer.running Timer.acc Timer.since].
  replace (0 + (clock s - t0) + 0) with (clock s - t0) by lia.
  replace (0 + (clock s - t0)) with (clock s - t0) by lia.
  split; [reflexivity|]. split; reflexivity.
Qed.
(** *** The debounce window of the user button *)

Lemma user_window_open (t r : Z) (s s' : Sys) :
  accepted (UserEdge t r) s = true ->
  step (UserEdge t r) s = Some s' ->
  user_button_debouncing s' = true /\
  debounce_user_button s' = Some (t + milliseconds DEBOUNCE_DELAY_MS).
Proof.
  intros Hacc Hstep.
  apply step_UserEdge_inv in Hstep as (-> & _).
  cbn in Hacc. apply negb_true_iff in Hacc.
  unfold on_user_button_press.
  change (user_button_debouncing (set_clock t s))
    with (user_button_debouncing s).
  rewrite Hacc. cbv zeta.
  change (state (debounce_user_button_attach _ _)) with (state s).
  destruct (state s); rewrite ?show_result_eq; split; reflexivity.
Qed.

Lemma user_window_step (d : Z) (e : Event) (s s' : Sys) :
  user_window d s ->
  match e with UserEdge _ _ => False | _ => True end ->
  step e s = Some s' ->
  user_window d s'.
Proof.
  intros Hw He Hstep.
  pose proof (step_clock_mono _ _ _ Hstep) as Hc.
  destruct e as [t r|t| | | |]; [contradiction| | | | |].
  - apply step_ExternalEdge_inv in Hstep as (-> & _).
    unfold on_external_button_press in *. rewrite reset_game_eq in *.
    unfold user_window in *.
    cbn [user_button_debouncing debounce_user_button clock set_clock] in *.
    destruct Hw as [Hw|(H1 & H2 & H3)]; [left; exact Hw|right].
    split; [exact H1|]. split; [exact H2|lia].
  - apply step_expiry_inv in Hstep as (d' & Hd & Hear & ->).
    unfold user_window in *.
    destruct Hw as [(H1 & H2)|(H1 & H2 & H3)]; [|congruence].
    right. rewrite H2 in Hd. injection Hd as <-.
    split; [reflexivity|]. split; [reflexivity|]. cbn. lia.
  - apply step_expiry_inv in Hstep as (d' & Hd & Hear & ->).
    unfold user_window in *.
    destruct Hw as [Hw|(H1 & H2 & H3)]; [left; exact Hw|right].
    split; [exact H1|]. split; [exact H2|]. cbn in Hc |- *. lia.
  - apply step_expiry_inv in Hstep as (d' & Hd & Hear & ->).
    rewrite on_random_delay_end_eq in *.
    unfold user_window in *.
    destruct Hw as [Hw|(H1 & H2 & H3)]; [left; exact Hw|right].
    split; [exact H1|]. split; [exact H2|]. cbn in Hc |- *. lia.
  - apply step_expiry_inv in Hstep as (p & d' & Hd & Hear & ->).
    rewrite toggle_led_eq in *.
    unfold user_window in *.
    destruct Hw as [Hw|(H1 & H2 & H3)]; [left; exact Hw|right].
    split; [exact H1|]. split; [exact H2|]. cbn in Hc |- *. lia.
Qed.

Lemma user_window_run (d : Z) (mid : list Event) :
  forall s s',
    user_window d s -> no_user_edge mid = true -> run mid s = Some s' ->
    user_window d s'.
Proof.
  induction mid as [|e mid IH]; cbn [run no_user_edge forallb];
    intros s s' Hw Hno Hrun.
  - now injection Hrun as <-.
  - destruct (step e s) as [s1|] eqn:Hstep; [|discriminate].
    apply andb_true_iff in Hno as [He Hno].
    apply (IH s1); auto.
    eapply user_window_step; eauto.
    destruct e; auto; discriminate.
Qed.

(** Of two consecutive presses of the user button, the first accepted at
    [t0], the second arriving at [t1], the second is accepted exactly when
    at least 200 ms lie between them; when it is dropped the globals are
    untouched. *)
Lemma user_button_debounce_window
  (t0 r0 t1 r1 : Z) (mid : list Event) (s0 s1 s2 s3 : Sys) :
  accepted (UserEdge t0 r0) s0 = true ->
  step (UserEdge t0 r0) s0 = Some s1 ->
  no_user_edge mid = true ->
  run mid s1 = Some s2 ->
  step (UserEdge t1 r1) s2 = Some s3 ->
  accepted (UserEdge t1 r1) s2
    = (milliseconds DEBOUNCE_DELAY_MS <=? t1 - t0) /\
  (accepted (UserEdge t1 r1) s2 = false -> s3 = set_clock t1 s2).
Proof.
  intros Hacc0 Hstep0 Hno Hrun Hstep1.
  destruct (user_window_open _ _ _ _ Hacc0 Hstep0) as [Hf Hd].
  assert (Hw : user_window (t0 + milliseconds DEBOUNCE_DELAY_MS) s1)
    by (left; split; assumption).
  pose proof (user_window_run _ _ _ _ Hw Hno Hrun) as Hw2.
  apply step_UserEdge_inv in Hstep1 as (-> & Hc & Hn & _).
  apply nothing_due_spec in Hn.
  cbn [accepted]. split.
  - destruct Hw2 as [(H1 & H2)|(H1 & H2 & H3)]; rewrite H1; cbn [negb].
    + unfold deadlines in Hn. rewrite H2 in Hn. cbn in Hn.
      inversion Hn as [|x l Hx _]; subst.
      symmetry. apply Z.leb_gt.
      unfold milliseconds, DEBOUNCE_DELAY_MS. lia.
    + symmetry. apply Z.leb_le.
      unfold milliseconds, DEBOUNCE_DELAY_MS in *. lia.
  - intros Hdrop. apply negb_false_iff in Hdrop.
    apply on_user_button_press_dropped. exact Hdrop.
Qed.
(** *** Start-up with no button edge *)

Lemma Some_eq' (A : Type) (x y : A) : Some x = Some y -> x = y.
Proof. congruence. Qed.

Lemma main_body_main : exec main_body boot = main.
Proof. reflexivity. Qed.

Lemma quiet_boot_step (b : Boot) (pc pc' : nat) (s s' : Sys) :
  quiet_boot_state pc s ->
  quiet_boot [b] = true ->
  boot_step b (pc, s) = Some (pc', s') ->
  quiet_boot_state pc' s'.
Proof.
  intros HK Hq Hstep.
  destruct HK as (Hst & Hrd & Hdu & Hde & Hfu & Hfe & Htm & Hrt & Hft
                  & Hlt & Hl8 & Hl9).
  destruct b as [t|e]; cbn [boot_step fst snd] in Hstep.
  - destruct (nth_error main_body pc) as [stmt|] eqn:Hnth; [|discriminate].
    destruct (edge_allowed t s) eqn:Hall; [|discriminate].
    injection Hstep as <- <-.
    unfold edge_allowed in Hall. apply andb_true_iff in Hall as [Hc Hn].
    apply Z.leb_le in Hc.
    break_sys s.
    cbn [state random_delay debounce_user_button debounce_external_button
         user_button_debouncing external_button_debouncing reaction_timer
         reaction_time fastest_time led_ticker LCD clock] in *.
    subst.
    assert (Hpc : (pc < 9)%nat).
    { change 9%nat with (List.length main_body).
      apply nth_error_Some. rewrite Hnth. discriminate. }
    assert (Hcases : pc = 0%nat \/ pc = 1%nat \/ pc = 2%nat \/ pc = 3%nat \/
                     pc = 4%nat \/ pc = 5%nat \/ pc = 6%nat \/ pc = 7%nat \/
                     pc = 8%nat) by lia.
    clear Hpc.
    repeat (destruct Hcases as [Hcases|Hcases]);
      subst pc; injection Hnth as <-; unfold quiet_boot_state;
      cbn [Nat.leb] in *;
      cbn [state random_delay debounce_user_button debounce_external_button
           user_button_debouncing external_button_debouncing reaction_timer
           reaction_time fastest_time led_ticker LCD clock set_clock
           LCD_Clear set_LCD set_state set_green_led led_ticker_attach
           set_led_ticker Ticker_attach LCD_DisplayStringAt app];
      repeat (split; [try reflexivity; try assumption|]);
      try (intros Heq; try discriminate Heq; try reflexivity;
           rewrite Hl8 by reflexivity; reflexivity);
      try assumption;
      try (unfold Ticker_attach, milliseconds; eexists;
           split; [reflexivity|lia]);
      try (destruct Hlt as (d & Hd & Hle); exists d; split; [exact Hd|];
           apply nothing_due_spec in Hn; unfold deadlines in Hn;
           cbn [debounce_user_button debounce_external_button random_delay
                led_ticker pending app] in Hn;
           rewrite Hd in Hn; inversion Hn; subst; lia).
  - destruct (armed_at pc e) eqn:Harm; [|discriminate].
    destruct (step e s) as [s1|] eqn:Hev; [|discriminate].
    injection Hstep as <- <-.
    destruct e as [t r|t| | | |]; try discriminate Hq.
    + apply step_expiry_inv in Hev as (d & Hd & _). congruence.
    + apply step_expiry_inv in Hev as (d & Hd & _). congruence.
    + apply step_expiry_inv in Hev as (d & Hd & _). congruence.
    + apply step_expiry_inv in Hev as (p & d & Hd & Hear & ->).
      apply earliest_spec in Hear as [Hc _].
      rewrite toggle_led_eq. unfold quiet_boot_state.
      cbn [state random_delay debounce_user_button debounce_external_button
           user_button_debouncing external_button_debouncing reaction_timer
           reaction_time fastest_time led_ticker LCD clock set_led_ticker
           set_clock].
      repeat (split; [assumption|]).
      split; [|split; assumption].
      destruct (pc <=? 6)%nat; [congruence|].
      destruct Hlt as (d0 & Hd0 & _). rewrite Hd in Hd0.
      apply Some_eq' in Hd0. injection Hd0 as -> ->.
      eexists. split; [reflexivity|]. unfold milliseconds. lia.
Qed.

Lemma quiet_boot_run (bs : list Boot) :
  forall pc s pc' s',
    quiet_boot_state pc s ->
    quiet_boot bs = true ->
    boot_run bs (pc, s) = Some (pc', s') ->
    quiet_boot_state pc' s'.
Proof.
  induction bs as [|b bs IH]; cbn [boot_run]; intros pc s pc' s' HK Hq Hrun.
  - injection Hrun as <- <-. exact HK.
  - destruct (boot_step b (pc, s)) as [[pc1 s1]|] eqn:Hstep; [|discriminate].
    unfold quiet_boot in Hq. cbn [forallb] in Hq.
    apply andb_true_iff in Hq as [Hb Hq].
    apply (IH pc1 s1); auto.
    eapply quiet_boot_step; eauto.
    unfold quiet_boot. cbn [forallb]. now rewrite Hb.
Qed.

Lemma quiet_boot_state_boot : quiet_boot_state 0 boot.
Proof.
  unfold quiet_boot_state. cbn.
  do 10 (split; [reflexivity|]). split; discriminate.
Qed.

Lemma quiet_boot_Inv (s : Sys) : quiet_boot_state main_done s -> Inv s.
Proof.
  intros (Hst & Hrd & Hdu & Hde & Hfu & Hfe & Htm & Hrt & Hft
          & Hlt & Hl8 & Hl9).
  cbn in Hlt. destruct Hlt as (d & Hd & Hle).
  split.
  - unfold deadlines. rewrite Hdu, Hde, Hrd, Hd. cbn.
    constructor; [exact Hle|constructor].
  - rewrite Hft. unfold UINT32_MAX. lia.
  - rewrite Hrt. unfold UINT32_MAX. lia.
  - rewrite Hfu, Hdu. split; congruence.
  - split; assumption.
  - unfold phase_inv. rewrite Hst.
    split; [exact Hrd|]. split; [exact Htm|]. exists d. exact Hd.
Qed.

(** The states reached when the initialisation ran with no button edge
    taken and any events followed. *)
Lemma started_Inv (bs : list Boot) (es : list Event) (b0 s : Sys) :
  boot_run bs (0%nat, boot) = Some (main_done, b0) ->
  quiet_boot bs = true ->
  run es b0 = Some s ->
  Inv s.
Proof.
  intros Hboot Hq Hrun.
  apply (Inv_run es b0 s); [|exact Hrun].
  apply quiet_boot_Inv.
  exact (quiet_boot_run bs _ _ _ _ quiet_boot_state_boot Hq Hboot).
Qed.

(** *** The armed phase, from any state *)

Lemma armed_step_any (e : Event) (s s' : Sys) :
  state s = GAME -> random_delay s = None ->
  step e s = Some s' -> state s' = GAME ->
  reaction_timer s' = reaction_timer s /\ random_delay s' = None /\
  (led_ticker s = None -> led_ticker s' = None /\ green_led s' = green_led s).
Proof.
  intros Hst Hrd Hstep Hst'.
  destruct e as [t r|t| | | |].
  - apply step_UserEdge_inv in Hstep as (-> & _).
    rewrite state_on_user_button_press in Hst'.
    change (user_button_debouncing (set_clock t s))
      with (user_button_debouncing s) in Hst'.
    change (state (set_clock t s)) with (state s) in Hst'.
    unfold on_user_button_press.
    change (user_button_debouncing (set_clock t s))
      with (user_button_debouncing s).
    destruct (user_button_debouncing s).
    + split; [reflexivity|]. split; [exact Hrd|]. intros H.
      split; [exact H|reflexivity].
    + rewrite Hst in Hst'. discriminate.
  - apply step_ExternalEdge_inv in Hstep as (-> & _). discriminate.
  - apply step_expiry_inv in Hstep as (d & _ & _ & ->).
    split; [reflexivity|]. split; [exact Hrd|]. intros H.
    split; [exact H|reflexivity].
  - apply step_expiry_inv in Hstep as (d & _ & _ & ->).
    split; [reflexivity|]. split; [exact Hrd|]. intros H.
    split; [exact H|reflexivity].
  - apply step_expiry_inv in Hstep as (d & Hd & _). congruence.
  - apply step_expiry_inv in Hstep as (p & d & Hd & _ & ->).
    split; [reflexivity|]. split; [exact Hrd|]. intros H. congruence.
Qed.

Lemma run_armed_any (mid : list Event) :
  forall s s',
    state s = GAME -> random_delay s = None ->
    run_armed mid s = Some s' ->
    state s' = GAME /\ clock s <= clock s' /\
    reaction_timer s' = reaction_timer s /\
    (led_ticker s = None ->
     led_ticker s' = None /\ green_led s' = green_led s).
Proof.
  induction mid as [|e mid IH]; cbn [run_armed]; intros s s' Hst Hrd Hrun.
  - injection Hrun as <-.
    split; [exact Hst|]. split; [lia|]. split; [reflexivity|].
    intros H. split; [exact H|reflexivity].
  - destruct (step e s) as [s1|] eqn:Hstep; [|discriminate].
    destruct (AppState_eqb (state s1) GAME) eqn:Hg; [|discriminate].
    apply AppState_eqb_eq in Hg.
    destruct (armed_step_any _ _ _ Hst Hrd Hstep Hg) as (Htm & Hrd1 & Hled).
    pose proof (step_clock_mono _ _ _ Hstep) as Hc.
    destruct (IH _ _ Hg Hrd1 Hrun) as (Hst' & Hc' & Htm' & Hled').
    split; [exact Hst'|]. split; [lia|]. split; [congruence|].
    intros H. destruct (Hled H) as [H1 H2]. destruct (Hled' H1) as [H3 H4].
    split; [exact H3|congruence].
Qed.
(** ** The claims *)

(** C1.  Along every trace from the initial state the phase is one of the
    five values of [AppState], and an accepted press of the user button
    moves it as the table says: PREGAME to START, START to CHEATING, GAME to
    RESULT, RESULT to PREGAME, CHEATING to PREGAME. *)
Theorem phase_follows_transition_table :
  forall (es : list Event) (s : Sys),
    run es main = Some s ->
    In (state s) [PREGAME; START; GAME; RESULT; CHEATING] /\
    forall (t r : Z) (s' : Sys),
      step (UserEdge t r) s = Some s' ->
      accepted (UserEdge t r) s = true ->
      state s' = next_phase (state s).
Proof.
  intros es s _. split.
  - destruct (state s); cbn; tauto.
  - intros t r s' Hstep Hacc.
    apply step_UserEdge_inv in Hstep as [-> _].
    rewrite state_on_user_button_press.
    cbn in Hacc. apply negb_true_iff in Hacc.
    change (user_button_debouncing (set_clock t s))
      with (user_button_debouncing s).
    now rewrite Hacc.
Qed.

Lemma phase_follows_transition_table_witness :
  run [UserEdge 5000 42; DebounceUserExpiry] main = Some waiting_example /\
  step (UserEdge 300000 7) waiting_example = Some cheating_example /\
  accepted (UserEdge 300000 7) waiting_example = true /\
  state cheating_example = next_phase (state waiting_example).
Proof.
  assert (H1 : run [UserEdge 5000 42; DebounceUserExpiry] main
               = Some waiting_example) by (vm_compute; reflexivity).
  assert (H2 : step (UserEdge 300000 7) waiting_example
               = Some cheating_example) by (vm_compute; reflexivity).
  assert (H3 : accepted (UserEdge 300000 7) waiting_example = true)
    by reflexivity.
  split; [exact H1|]. split; [exact H2|]. split; [exact H3|].
  exact (proj2 (phase_follows_transition_table _ _ H1) _ _ _ H2 H3).
Defined.

(** C2.  In a session (the trace since start-up or since the last reset)
    [fastest_time] is the minimum of the sentinel and of the
    [reaction_time] values of the rounds completed so far, hence, once a
    round is completed, the minimum of those values; no step other than an
    external-button press raises it, none of them brings it back to the
    sentinel, and an external-button press sets it to the sentinel whatever
    it was. *)
Theorem best_time_is_session_minimum :
  forall (es : list Event) (s : Sys) (rounds : list Z),
    session es main [] = Some (s, rounds) ->
    fastest_time s = fold_right Z.min UINT32_MAX rounds /\
    (forall c cs, rounds = c :: cs -> fastest_time s = fold_right Z.min c cs) /\
    (forall e s',
        step e s = Some s' ->
        if is_reset e then fastest_time s' = UINT32_MAX
        else fastest_time s' <= fastest_time s /\
             (fastest_time s' = UINT32_MAX -> fastest_time s = UINT32_MAX)).
Proof.
  intros es s rounds Hs.
  apply session_minimum in Hs as (HI & Hf & Hall);
    [|exact Inv_main|reflexivity|constructor].
  split; [exact Hf|]. split.
  - intros c cs ->. rewrite Hf. cbn [fold_right].
    apply fold_min_head. now inversion Hall.
  - intros e s' Hstep.
    pose proof (records_step _ _ _ Hstep) as Hrec.
    pose proof (inv_fastest _ HI) as Hrange.
    destruct (is_reset e); [tauto|].
    destruct (completes_round e s); lia.
Qed.

Lemma best_time_is_session_minimum_witness :
  session [UserEdge 5000 42; DebounceUserExpiry; RandomDelayExpiry;
           UserEdge 1397000 7] main [] = Some (result_example, [350]) /\
  fastest_time result_example = 350.
Proof.
  assert (H : session [UserEdge 5000 42; DebounceUserExpiry;
                       RandomDelayExpiry; UserEdge 1397000 7] main []
              = Some (result_example, [350])) by (vm_compute; reflexivity).
  split; [exact H|].
  exact (proj1 (proj2 (best_time_is_session_minimum _ _ _ H)) 350 [] eq_refl).
Defined.

(** C3.  The claim holds for the user button (lemmas
    [user_button_debounce_window] and [user_window_open]) and fails for the
    external button: its handler neither tests nor sets
    [external_button_debouncing] and never attaches
    [debounce_external_button], so it resets the game even when the flag is
    set, and of two external presses 2 ms apart the second is accepted too:
    here it takes the game from START back to PREGAME and cancels the
    go-delay. *)
Theorem external_button_is_not_debounced :
  (forall s : Sys,
      external_button_debouncing (on_external_button_press s)
        = external_button_debouncing s /\
      debounce_external_button (on_external_button_press s)
        = debounce_external_button s /\
      state (on_external_button_press
               (set_external_button_debouncing true s)) = PREGAME /\
      fastest_time (on_external_button_press
                      (set_external_button_debouncing true s))
        = UINT32_MAX) /\
  run [ExternalEdge 1000; UserEdge 2000 42] main
    = Some external_then_user_example /\
  state external_then_user_example = START /\
  random_delay external_then_user_example = Some 1044000 /\
  external_button_debouncing external_then_user_example = false /\
  debounce_external_button external_then_user_example = None /\
  step (ExternalEdge 3000) external_then_user_example
    = Some external_again_example /\
  state external_again_example = PREGAME /\
  random_delay external_again_example = None.
Proof.
  split.
  - intros s. repeat (split; [reflexivity|]). reflexivity.
  - vm_compute. repeat (split; [reflexivity|]). reflexivity.
Qed.

(** C4, as stated, fails: both handlers that leave START write the phase
    first and cancel the go-delay later.  After the first statement of
    [detect_cheating], and likewise of [reset_game], entered in the waiting
    state of the sample round, the phase has changed and the go-delay is
    still scheduled for 1047 ms; its callback, run there, sets the phase to
    GAME. *)
Lemma go_delay_cancelled_late :
  state waiting_example = START /\
  random_delay waiting_example = Some 1047000 /\
  state (after 1 detect_cheating_body waiting_example) = CHEATING /\
  random_delay (after 1 detect_cheating_body waiting_example)
    = Some 1047000 /\
  state (on_random_delay_end (after 1 detect_cheating_body waiting_example))
    = GAME /\
  state (after 1 reset_game_body waiting_example) = PREGAME /\
  random_delay (after 1 reset_game_body waiting_example) = Some 1047000 /\
  ~ cancels_first detect_cheating_body /\
  ~ cancels_first reset_game_body /\
  ~ no_stale_go detect_cheating_body /\
  ~ no_stale_go reset_game_body.
Proof.
  repeat (split; [reflexivity|]).
  split; [|split; [|split]].
  - intros H. specialize (H waiting_example). discriminate H.
  - intros H. specialize (H waiting_example). discriminate H.
  - intros H.
    specialize (H waiting_example 1%nat eq_refl ltac:(discriminate)).
    discriminate H.
  - intros H.
    specialize (H waiting_example 1%nat eq_refl ltac:(discriminate)).
    discriminate H.
Qed.

(** C4, amended.  Every accepted press that leaves START (a user press,
    which goes to CHEATING, or an external press, which goes to PREGAME)
    cancels the go-delay inside its handler: when the handler has run to
    completion the delay is no longer scheduled and its callback cannot
    fire.  The cancellation is not the first statement: [detect_cheating]
    cancels in its last statement and [reset_game] in its sixth, both after
    writing the phase, and up to that statement the delay is as it was. *)
Theorem leaving_waiting_cancels_go_delay :
  (forall (e : Event) (s s' : Sys),
      state s = START ->
      accepted e s = true ->
      step e s = Some s' ->
      state s' <> START /\
      random_delay s' = None /\
      step RandomDelayExpiry s' = None) /\
  (forall (s : Sys) (k : nat),
      random_delay (after k detect_cheating_body s) =
      if (k <? 8)%nat then random_delay s else None) /\
  (forall (s : Sys) (k : nat),
      random_delay (after k reset_game_body s) =
      if (k <? 6)%nat then random_delay s else None).
Proof.
  split; [|split].
  - intros e s s' Hst Hacc Hstep.
    destruct e as [t r|t| | | |]; try discriminate Hacc.
    + apply step_UserEdge_inv in Hstep as (-> & _).
      cbn in Hacc. apply negb_true_iff in Hacc.
      unfold on_user_button_press.
      change (user_button_debouncing (set_clock t s))
        with (user_button_debouncing s).
      rewrite Hacc. cbv zeta.
      change (state (debounce_user_button_attach _ _)) with (state s).
      rewrite Hst.
      split; [discriminate|]. split; reflexivity.
    + apply step_ExternalEdge_inv in Hstep as (-> & _).
      split; [discriminate|]. split; reflexivity.
  - intros s k.
    do 8 (destruct k as [|k]; [reflexivity|]). destruct k; reflexivity.
  - intros s k.
    do 6 (destruct k as [|k]; [reflexivity|]).
    do 7 (destruct k as [|k]; [reflexivity|]). destruct k; reflexivity.
Qed.

Lemma leaving_waiting_cancels_go_delay_witness :
  state waiting_example = START /\
  step (UserEdge 300000 7) waiting_example = Some cheating_example /\
  random_delay waiting_example = Some 1047000 /\
  random_delay cheating_example = None.
Proof.
  assert (H : step (UserEdge 300000 7) waiting_example
              = Some cheating_example) by (vm_compute; reflexivity).
  pose proof (proj1 leaving_waiting_cancels_go_delay
                (UserEdge 300000 7) waiting_example cheating_example
                eq_refl eq_refl H) as (_ & H1 & _).
  split; [reflexivity|]. split; [exact H|]. split; [reflexivity|exact H1].
Defined.

(** C5.  The handler of the external button, run in any state whatever:
    the go-delay is cancelled and cannot expire, the reaction timer is
    stopped, the blink is detached (after the eight statements that precede
    the call of [start_pregame]) and then attached again with the 100 ms
    period, [fastest_time] is the sentinel, [reaction_time] is 0, the LED
    is off and the phase is PREGAME.  The delays and timers it cancels are
    those of the game: afterwards the next tick of the idle blink is the
    only thing scheduled besides the debounce one-shots, and the debounce
    flag and one-shot of the user button are left as they were. *)
Theorem external_press_resets_to_pregame :
  forall s : Sys,
    let s' := on_external_button_press s in
    state s' = PREGAME /\
    fastest_time s' = UINT32_MAX /\
    reaction_time s' = 0 /\
    green_led s' = false /\
    random_delay s' = None /\
    step RandomDelayExpiry s' = None /\
    Timer.running (reaction_timer s') = false /\
    led_ticker (exec (firstn 8 reset_game_body) s) = None /\
    led_ticker s' = Some (milliseconds 100, clock s + milliseconds 100) /\
    deadlines s' =
      pending (debounce_user_button s) ++ pending (debounce_external_button s)
      ++ [clock s + milliseconds 100] /\
    user_button_debouncing s' = user_button_debouncing s /\
    debounce_user_button s' = debounce_user_button s.
Proof.
  intros s s'. subst s'. unfold on_external_button_press.
  repeat (split; [reflexivity|]). reflexivity.
Qed.

(** C6.  A user press accepted in START leads to CHEATING, so neither to
    GAME nor to RESULT; afterwards the go-delay is no longer scheduled and
    cannot expire, and the blink runs with the 500 ms period. *)
Theorem early_press_is_cheating :
  forall (t r : Z) (s s' : Sys),
    state s = START ->
    accepted (UserEdge t r) s = true ->
    step (UserEdge t r) s = Some s' ->
    state s' = CHEATING /\ state s' <> GAME /\ state s' <> RESULT /\
    random_delay s' = None /\
    step RandomDelayExpiry s' = None /\
    led_ticker s' = Some (milliseconds 500, t + milliseconds 500).
Proof.
  intros t r s s' Hst Hacc Hstep.
  apply step_UserEdge_inv in Hstep as (-> & _).
  cbn in Hacc. apply negb_true_iff in Hacc.
  unfold on_user_button_press.
  change (user_button_debouncing (set_clock t s))
    with (user_button_debouncing s).
  rewrite Hacc. cbv zeta.
  change (state (debounce_user_button_attach _ _)) with (state s).
  rewrite Hst.
  repeat split; try reflexivity; discriminate.
Qed.

Lemma early_press_is_cheating_witness :
  state waiting_example = START /\
  step (UserEdge 300000 7) waiting_example = Some cheating_example /\
  state cheating_example = CHEATING /\
  random_delay cheating_example = None.
Proof.
  assert (H : step (UserEdge 300000 7) waiting_example
              = Some cheating_example) by (vm_compute; reflexivity).
  pose proof (early_press_is_cheating 300000 7 waiting_example
                cheating_example eq_refl eq_refl H) as (H1 & _ & _ & H2 & _).
  split; [reflexivity|]. split; [exact H|]. split; [exact H1|exact H2].
Defined.

(** C7, as stated, fails twice.  [reaction_time] is a [uint32_t], so a
    press that comes 2^32 ms after the go signal records 0 and not
    4294967296.  And the LED is not always steady in GAME: [main] arms the
    button interrupts (lines 72-73) before it calls [start_pregame] (line
    77), so a user press taken while [start_pregame] runs leaves START with
    the 100 ms blink attached; the go signal then finds the blink running,
    and the next tick turns the LED off in GAME. *)
Lemma armed_round_claim_fails :
  (run [UserEdge 5000 42; DebounceUserExpiry] main = Some waiting_example /\
   state waiting_example = START /\
   step RandomDelayExpiry waiting_example = Some armed_example /\
   clock armed_example = 1047000 /\
   accepted (UserEdge (1047000 + 4294967296000) 0) armed_example = true /\
   step (UserEdge (1047000 + 4294967296000) 0) armed_example
     = Some late_press_example /\
   Timer.running (reaction_timer late_press_example) = false /\
   Timer.elapsed_time (clock late_press_example)
     (reaction_timer late_press_example) / 1000 = 4294967296 /\
   reaction_time late_press_example = 0 /\
   reaction_time late_press_example <>
     Timer.elapsed_time (clock late_press_example)
       (reaction_timer late_press_example) / 1000) /\
  (boot_run disturbed_boot (0%nat, boot)
     = Some (main_done, disturbed_start_example) /\
   state disturbed_start_example = START /\
   led_ticker disturbed_start_example = Some (100000, 100020) /\
   random_delay disturbed_start_example = Some 1000010 /\
   run ([LedTick; DebounceUserExpiry] ++ repeat LedTick 8
        ++ [RandomDelayExpiry]) disturbed_start_example
     = Some disturbed_armed_example /\
   state disturbed_armed_example = GAME /\
   green_led disturbed_armed_example = true /\
   led_ticker disturbed_armed_example = Some (100000, 1000020) /\
   step LedTick disturbed_armed_example = Some disturbed_dark_example /\
   state disturbed_dark_example = GAME /\
   green_led disturbed_dark_example = false).
Proof.
  split.
  - vm_compute. repeat (split; [reflexivity|]). discriminate.
  - vm_compute. repeat (split; [reflexivity|]). reflexivity.
Qed.

(** C7, amended.  When the go-delay expires, in any state, the phase
    becomes GAME with the LED on and the reaction timer running from that
    instant with nothing accumulated; the timer stays so while the phase is
    GAME.  The LED stays on steady if the blink is detached when the delay
    expires, and it is detached in every START state reached when no button
    edge was taken before [main] had finished its initialisation.  When a
    user press is then accepted the timer is stopped and [reaction_time] is
    the number of whole milliseconds between the go signal and the press,
    reduced modulo 2^32: it equals that number whenever the number is
    below 2^32. *)
Theorem armed_round_measures_reaction :
  forall (mid : list Event) (s0 s1 s2 s3 : Sys) (t r : Z),
    step RandomDelayExpiry s0 = Some s1 ->
    run_armed mid s1 = Some s2 ->
    accepted (UserEdge t r) s2 = true ->
    step (UserEdge t r) s2 = Some s3 ->
    (state s1 = GAME /\ green_led s1 = true /\
     reaction_timer s1 = Timer.mk true (clock s1) 0 /\
     led_ticker s1 = led_ticker s0) /\
    (reaction_timer s2 = reaction_timer s1 /\
     (led_ticker s0 = None -> green_led s2 = true /\ led_ticker s2 = None)) /\
    (state s3 = RESULT /\
     Timer.running (reaction_timer s3) = false /\
     Timer.elapsed_time (clock s3) (reaction_timer s3) = t - clock s1 /\
     0 <= t - clock s1 /\
     reaction_time s3 = to_uint32 ((t - clock s1) / 1000) /\
     ((t - clock s1) / 1000 < 2 ^ 32 ->
      reaction_time s3 = (t - clock s1) / 1000)) /\
    (forall (bs : list Boot) (es : list Event) (b0 : Sys),
        boot_run bs (0%nat, boot) = Some (main_done, b0) ->
        quiet_boot bs = true ->
        run es b0 = Some s0 ->
        state s0 = START ->
        led_ticker s0 = None).
Proof.
  intros mid s0 s1 s2 s3 t r Hgo Hmid Hacc Hpress.
  assert (Hs1 : state s1 = GAME /\ green_led s1 = true /\
                reaction_timer s1 = Timer.mk true (clock s1) 0 /\
                led_ticker s1 = led_ticker s0 /\ random_delay s1 = None).
  { apply step_expiry_inv in Hgo as (d & _ & _ & ->).
    rewrite on_random_delay_end_eq. repeat split. }
  destruct Hs1 as (Hst1 & Hled1 & Htm1 & Hlt1 & Hrd1).
  destruct (run_armed_any _ _ _ Hst1 Hrd1 Hmid)
    as (Hst2 & Hc12 & Htm2 & Hsteady).
  apply step_UserEdge_inv in Hpress as (-> & Hc2 & _).
  cbn in Hacc. apply negb_true_iff in Hacc.
  split; [tauto|]. split.
  { split; [exact Htm2|]. intros Hnone.
    rewrite <- Hlt1 in Hnone. destruct (Hsteady Hnone) as [H1 H2].
    split; [congruence|exact H1]. }
  split.
  - unfold on_user_button_press.
    change (user_button_debouncing (set_clock t s2))
      with (user_button_debouncing s2).
    rewrite Hacc. cbv zeta.
    change (state (debounce_user_button_attach _ _)) with (state s2).
    rewrite Hst2.
    set (s := debounce_user_button_attach _ _).
    assert (Htm : reaction_timer s = Timer.mk true (clock s1) 0)
      by (subst s; cbn; congruence).
    destruct (reaction_time_show_result s (clock s1) Htm)
      as (Hrt & Hstop & Hel).
    change (clock s) with t in Hrt, Hel.
    assert (Hclk : clock (show_result s) = t)
      by (rewrite show_result_eq; reflexivity).
    assert (Hnn : 0 <= t - clock s1) by lia.
    rewrite Z.quot_div_nonneg in Hrt by lia.
    split; [rewrite show_result_eq; reflexivity|].
    split; [exact Hstop|]. split; [rewrite Hclk; exact Hel|].
    split; [exact Hnn|]. split; [exact Hrt|].
    intros Hlt. rewrite Hrt. unfold to_uint32.
    apply Z.mod_small. split; [apply Z.div_pos; lia|exact Hlt].
  - intros bs es b0 Hboot Hq Hrun Hst0.
    pose proof (started_Inv _ _ _ _ Hboot Hq Hrun) as HI.
    pose proof (inv_phase _ HI) as Hp. unfold phase_inv in Hp.
    rewrite Hst0 in Hp. tauto.
Qed.

Lemma armed_round_measures_reaction_witness :
  step RandomDelayExpiry waiting_example = Some armed_example /\
  step (UserEdge 1397000 7) armed_example = Some result_example /\
  boot_run (repeat (Resume 0) 9) (0%nat, boot) = Some (main_done, main) /\
  run [UserEdge 5000 42; DebounceUserExpiry] main = Some waiting_example /\
  led_ticker waiting_example = None /\
  green_led armed_example = true /\
  reaction_time result_example = (1397000 - clock armed_example) / 1000 /\
  reaction_time result_example = 350.
Proof.
  assert (H1 : run [UserEdge 5000 42; DebounceUserExpiry] main
               = Some waiting_example) by (vm_compute; reflexivity).
  assert (H2 : step RandomDelayExpiry waiting_example = Some armed_example)
    by (vm_compute; reflexivity).
  assert (H3 : step (UserEdge 1397000 7) armed_example = Some result_example)
    by (vm_compute; reflexivity).
  assert (H4 : boot_run (repeat (Resume 0) 9) (0%nat, boot)
               = Some (main_done, main)) by (vm_compute; reflexivity).
  pose proof (armed_round_measures_reaction [] _ _ _ _ _ _
                H2 eq_refl eq_refl H3)
    as (_ & (_ & Hsteady) & (_ & _ & _ & _ & _ & Hsmall) & Hquiet).
  pose proof (Hquiet _ _ _ H4 eq_refl H1 eq_refl) as Hnone.
  split; [exact H2|]. split; [exact H3|]. split; [exact H4|].
  split; [exact H1|]. split; [exact Hnone|].
  split; [exact (proj1 (Hsteady Hnone))|].
  split; [apply Hsmall; vm_compute; reflexivity|reflexivity].
Defined.

(** C8.  Whatever non-negative value [rand()] returns, the delay computed
    from it lies in [1000, 5000) milliseconds, and that is the delay after
    which [start_game] schedules the go signal. *)
Theorem go_delay_in_range :
  forall r : Z,
    0 <= r ->
    1000 <= delay r < 5000 /\
    forall s : Sys,
      exists d,
        random_delay (start_game r s) = Some (clock s + d) /\
        milliseconds 1000 <= d < milliseconds 5000.
Proof.
  intros r Hr. pose proof (delay_range r Hr) as Hd.
  split; [exact Hd|].
  intros s. exists (milliseconds (delay r)).
  split; [reflexivity|]. unfold milliseconds. lia.
Qed.

Lemma go_delay_in_range_witness : 1000 <= delay 2147483647 < 5000.
Proof.
  exact (proj1 (go_delay_in_range 2147483647 ltac:(lia))).
Defined.

(** C9.  A user press accepted in RESULT or in CHEATING leads to PREGAME
    and leaves [reaction_time] and [fastest_time] as they were; more
    generally every step that is neither an external-button press nor the
    press that completes a round leaves both unchanged. *)
Theorem records_only_change_by_round_or_reset :
  (forall (t r : Z) (s s' : Sys),
      state s = RESULT \/ state s = CHEATING ->
      accepted (UserEdge t r) s = true ->
      step (UserEdge t r) s = Some s' ->
      state s' = PREGAME /\
      reaction_time s' = reaction_time s /\
      fastest_time s' = fastest_time s) /\
  (forall (e : Event) (s s' : Sys),
      is_reset e = false ->
      completes_round e s = false ->
      step e s = Some s' ->
      reaction_time s' = reaction_time s /\
      fastest_time s' = fastest_time s).
Proof.
  split.
  - intros t r s s' Hst Hacc Hstep.
    pose proof (records_step _ _ _ Hstep) as Hrec.
    cbn [is_reset completes_round] in Hrec.
    apply step_UserEdge_inv in Hstep as (-> & _).
    rewrite state_on_user_button_press.
    cbn in Hacc. apply negb_true_iff in Hacc.
    change (user_button_debouncing (set_clock t s))
      with (user_button_debouncing s).
    change (state (set_clock t s)) with (state s).
    rewrite Hacc in *. cbn [negb andb] in Hrec.
    destruct Hst as [Hst|Hst]; rewrite Hst in *; cbn in Hrec; tauto.
  - intros e s s' Hres Hround Hstep.
    pose proof (records_step _ _ _ Hstep) as Hrec.
    now rewrite Hres, Hround in Hrec.
Qed.

Lemma records_only_change_by_round_or_reset_witness :
  step (UserEdge 2000000 9) result_idle_example = Some pregame_again_example /\
  state result_idle_example = RESULT /\
  state pregame_again_example = PREGAME /\
  fastest_time pregame_again_example = 350 /\
  reaction_time pregame_again_example = reaction_time result_idle_example.
Proof.
  assert (H : step (UserEdge 2000000 9) result_idle_example
              = Some pregame_again_example) by (vm_compute; reflexivity).
  pose proof (proj1 records_only_change_by_round_or_reset
                2000000 9 result_idle_example pregame_again_example
                (or_introl eq_refl) eq_refl H) as (H1 & H2 & H3).
  pose proof (proj2 records_only_change_by_round_or_reset
                (UserEdge 2000000 9) result_idle_example
                pregame_again_example eq_refl eq_refl H) as (H4 & _).
  split; [exact H|]. split; [reflexivity|]. split; [exact H1|].
  split; [rewrite H3; reflexivity|exact H4].
Defined.

(** C10.  The go-delay callback never reads the phase: from any state, and
    whatever the phase in it, it leaves the phase at GAME, the LED on and
    the reaction timer running from the current clock value with nothing
    accumulated. *)
Theorem go_callback_ignores_phase :
  forall (s : Sys) (a : AppState),
    let s' := on_random_delay_end s in
    state s' = GAME /\
    green_led s' = true /\
    reaction_timer s' = Timer.mk true (clock s) 0 /\
    Timer.elapsed_time (clock s) (reaction_timer s') = 0 /\
    on_random_delay_end (set_state a s) = s'.
Proof.
  intros s a s'. subst s'. rewrite !on_random_delay_end_eq.
  repeat split. cbn. lia.
Qed.

(** ** Further properties of the handlers *)

Lemma Some_eq (A : Type) (x y : A) : Some x = Some y -> x = y.
Proof. congruence. Qed.

Lemma Inv2_main : Inv2 main.
Proof.
  split; cbn; try reflexivity; try discriminate; auto.
Qed.

Ltac sys_simpl2 :=
  unfold screen_of, steady_led, button_ready in *; sys_simpl.

Lemma Inv2_UserEdge (t r : Z) (s : Sys) :
  Inv s -> Inv2 s -> clock s <= t -> nothing_due t s = true -> 0 <= r ->
  Inv2 (on_user_button_press r (set_clock t s)).
Proof.
  intros [Hd Hf Hr Hu [He1 He2] Hp] [Hscr Hled Hbest Hrdy Hdb Hgb] Hc Hn Hr0.
  apply nothing_due_spec in Hn.
  unfold on_user_button_press.
  change (user_button_debouncing (set_clock t s))
    with (user_button_debouncing s).
  destruct (user_button_debouncing s) eqn:Hub.
  - break_sys s. sys_simpl2. subst.
    split; sys_simpl2; auto.
    + intros d Hd'. specialize (Hdb d Hd'). lia.
    + intros d Hd'. specialize (Hgb d Hd'). lia.
  - cbv zeta.
    change (state (debounce_user_button_attach _ _)) with (state s).
    pose proof (delay_range r Hr0) as Hdel.
    destruct (state s) eqn:Hst;
      [ rewrite start_game_eq | rewrite detect_cheating_eq
      | rewrite show_result_eq | rewrite start_pregame_eq
      | rewrite start_pregame_eq ];
      break_sys s; sys_simpl2; subst; cbv zeta; sys_simpl2.
    all: split; sys_simpl2; auto; try discriminate.
    all: try (intros ? Heq; apply Some_eq in Heq; lia).
    all: try (intros ? ? Heq1 Heq2; apply Some_eq in Heq1, Heq2; lia).
    all: try (intros _; match goal with |- context [?a <? ?b] =>
                destruct (Z.ltb_spec a b); lia end).
    all: finish_phase.
Qed.

Lemma Inv2_step (e : Event) (s s' : Sys) :
  Inv s -> Inv2 s -> step e s = Some s' -> Inv2 s'.
Proof.
  intros HI HI2 Hstep.
  destruct e as [t r|t| | | |].
  - apply step_UserEdge_inv in Hstep as (-> & Hc & Hn & Hr0).
    apply Inv2_UserEdge; auto; lia.
  - apply step_ExternalEdge_inv in Hstep as (-> & Hc & Hn).
    destruct HI2 as [Hscr Hled Hbest Hrdy Hdb Hgb].
    unfold on_external_button_press. rewrite reset_game_eq.
    break_sys s. sys_simpl2. subst.
    split; sys_simpl2; auto; try discriminate.
    intros d Hd'. specialize (Hdb d Hd'). lia.
  - apply step_expiry_inv in Hstep as (d & Hd & Hear & ->).
    apply earliest_spec in Hear as [Hc Hall].
    destruct HI as [Hdl Hf Hr Hu [He1 He2] Hp].
    destruct HI2 as [Hscr Hled Hbest Hrdy Hdb Hgb].
    break_sys s. sys_simpl2. subst.
    split; sys_simpl2; auto; try discriminate.
    + destruct st; auto. intros ? ? ?; discriminate.
    + intros d' Hd'. specialize (Hgb d' Hd'). lia.
  - apply step_expiry_inv in Hstep as (d & Hd & _).
    destruct HI as [_ _ _ _ [_ He2] _]. congruence.
  - apply step_expiry_inv in Hstep as (d & Hd & Hear & ->).
    apply earliest_spec in Hear as [Hc Hall].
    destruct HI as [Hdl Hf Hr Hu [He1 He2] Hp].
    destruct HI2 as [Hscr Hled Hbest Hrdy Hdb Hgb].
    rewrite on_random_delay_end_eq.
    break_sys s. sys_simpl2. subst.
    destruct st; try (destruct Hp as [Hp _]; discriminate).
    split; sys_simpl2; auto; try discriminate.
    + destruct ubd; [|reflexivity].
      destruct dub as [db|]; [|exfalso; apply Hu; auto].
      specialize (Hrdy db d eq_refl eq_refl).
      cbn [pending app] in Hall. inversion Hall; subst. lia.
    + intros d' Hd'. specialize (Hdb d' Hd').
      subst dub. specialize (Hrdy d' d eq_refl eq_refl). lia.
  - apply step_expiry_inv in Hstep as (p & d & Hd & Hear & ->).
    apply earliest_spec in Hear as [Hc Hall].
    destruct HI as [Hdl Hf Hr Hu [He1 He2] Hp].
    destruct HI2 as [Hscr Hled Hbest Hrdy Hdb Hgb].
    rewrite toggle_led_eq.
    break_sys s. sys_simpl2. subst.
    split; sys_simpl2; auto.
    + destruct st; auto; finish_phase.
    + intros d' Hd'. specialize (Hdb d' Hd'). lia.
    + intros d' Hd'. specialize (Hgb d' Hd'). lia.
Qed.

Lemma Inv_both_run (es : list Event) :
  forall s s', Inv s -> Inv2 s -> run es s = Some s' -> Inv s' /\ Inv2 s'.
Proof.
  induction es as [|e es IH]; cbn [run]; intros s s' HI HI2 Hrun.
  - injection Hrun as <-. split; assumption.
  - destruct (step e s) as [s1|] eqn:Hstep; [|discriminate].
    apply (IH s1); eauto using Inv_step, Inv2_step.
Qed.

Lemma reachable_inv (es : list Event) (s : Sys) :
  run es main = Some s -> Inv s /\ Inv2 s.
Proof. apply Inv_both_run; [exact Inv_main|exact Inv2_main]. Qed.

Lemma quiet_boot_Inv2 (s : Sys) : quiet_boot_state main_done s -> Inv2 s.
Proof.
  intros (Hst & Hrd & Hdu & Hde & Hfu & Hfe & Htm & Hrt & Hft
          & Hlt & Hl8 & Hl9).
  split.
  - unfold screen_of. rewrite Hst. now apply Hl9.
  - unfold steady_led. now rewrite Hst.
  - rewrite Hst. discriminate.
  - unfold button_ready. now rewrite Hst.
  - rewrite Hdu. discriminate.
  - rewrite Hrd. discriminate.
Qed.

(** The states reached when [main] ran its initialisation with no button
    edge taken (ticks allowed) and any events followed. *)
Lemma started_inv (bs : list Boot) (es : list Event) (b0 s : Sys) :
  boot_run bs (0%nat, boot) = Some (main_done, b0) ->
  quiet_boot bs = true ->
  run es b0 = Some s ->
  Inv s /\ Inv2 s.
Proof.
  intros Hboot Hq Hrun.
  pose proof (quiet_boot_run bs _ _ _ _ quiet_boot_state_boot Hq Hboot) as HK.
  apply (Inv_both_run es b0 s);
    [now apply quiet_boot_Inv|now apply quiet_boot_Inv2|exact Hrun].
Qed.

Lemma deadline_not_past (s : Sys) (d : Z) :
  Inv s -> In d (deadlines s) -> clock s <= d.
Proof.
  intros HI Hin. pose proof (inv_deadlines _ HI) as H.
  rewrite Forall_forall in H. now apply H.
Qed.

(** X1.  When [main] has run its initialisation with no button edge taken
    before [start_pregame] returned, then in every state reached
    afterwards each phase holds exactly its own timing objects: the
    go-delay is scheduled in START and nowhere else, the reaction timer
    runs in GAME and nowhere else, the blink is attached in PREGAME (every
    100 ms) and CHEATING (every 500 ms) and nowhere else; a scheduled
    go-delay is due within 5 s.  (A button edge taken during the
    initialisation can break each of these.) *)
Theorem phase_owns_its_timers :
  forall (bs : list Boot) (es : list Event) (b0 s : Sys),
    boot_run bs (0%nat, boot) = Some (main_done, b0) ->
    quiet_boot bs = true ->
    run es b0 = Some s ->
    (random_delay s <> None <-> state s = START) /\
    (Timer.running (reaction_timer s) = true <-> state s = GAME) /\
    (led_ticker s <> None <-> state s = PREGAME \/ state s = CHEATING) /\
    (forall p d, led_ticker s = Some (p, d) ->
       p = milliseconds (if AppState_eqb (state s) PREGAME then 100 else 500)
       /\ clock s <= d) /\
    (forall d, random_delay s = Some d ->
       clock s <= d < clock s + milliseconds 5000).
Proof.
  intros bs es b0 s Hboot Hq Hrun.
  destruct (started_inv _ _ _ _ Hboot Hq Hrun) as [HI HI2].
  pose proof (inv_phase _ HI) as Hp. unfold phase_inv in Hp.
  assert (Hgo : forall d, random_delay s = Some d ->
                  clock s <= d < clock s + milliseconds 5000).
  { intros d Hd. split; [|exact (inv_go_bound _ HI2 d Hd)].
    apply (deadline_not_past s d HI). unfold deadlines. rewrite Hd.
    rewrite !in_app_iff. right. right. left. now left. }
  assert (Htk : forall p d, led_ticker s = Some (p, d) -> clock s <= d).
  { intros p d Hd. apply (deadline_not_past s d HI). unfold deadlines.
    rewrite Hd. rewrite !in_app_iff. right. right. right. now left. }
  split; [|split; [|split; [|split; [|exact Hgo]]]].
  - destruct (state s); split; intros H; try discriminate; try reflexivity;
      try (destruct Hp as (Hrd & _); congruence).
  - destruct (state s); split; intros H; try discriminate; try reflexivity;
      try (destruct Hp as (_ & Hr & _); congruence);
      try (destruct Hp as (_ & _ & _ & t0 & Htm & _); now rewrite Htm);
      try (destruct Hp as (_ & _ & Hr); congruence).
  - destruct (state s); split; intros H; auto;
      try (destruct H; discriminate);
      try (destruct Hp as (_ & _ & d0 & Hlt); congruence);
      try (destruct Hp as (_ & _ & Hlt & _); congruence);
      try (destruct Hp as (_ & Hlt & _); congruence);
      try (destruct Hp as (_ & _ & Hlt); congruence).
  - intros p d Hd. split; [|eapply Htk; eauto].
    destruct (state s); cbn [AppState_eqb];
      try (destruct Hp as (_ & _ & d0 & Hlt); rewrite Hlt in Hd;
           apply Some_eq in Hd; injection Hd as <- _; reflexivity);
      try (destruct Hp as (_ & _ & Hlt & _); congruence);
      try (destruct Hp as (_ & Hlt & _); congruence);
      try (destruct Hp as (_ & _ & Hlt); congruence).
Qed.

Lemma phase_owns_its_timers_witness :
  boot_run (repeat (Resume 0) 9) (0%nat, boot) = Some (main_done, main) /\
  run [UserEdge 5000 42; DebounceUserExpiry] main = Some waiting_example /\
  (random_delay waiting_example <> None <-> state waiting_example = START) /\
  (led_ticker waiting_example <> None <->
   state waiting_example = PREGAME \/ state waiting_example = CHEATING).
Proof.
  assert (H0 : boot_run (repeat (Resume 0) 9) (0%nat, boot)
               = Some (main_done, main)) by (vm_compute; reflexivity).
  assert (H : run [UserEdge 5000 42; DebounceUserExpiry] main
              = Some waiting_example) by (vm_compute; reflexivity).
  pose proof (phase_owns_its_timers _ _ _ _ H0 eq_refl H)
    as (H1 & _ & H3 & _).
  split; [exact H0|]. split; [exact H|]. split; [exact H1|exact H3].
Defined.

(** X2.  In every reachable state the debounce flag of the user button is
    set exactly while its one-shot is scheduled, and the one-shot is due
    no later than 200 ms from now, so a set flag is always cleared; the
    flag of the external button is never set, its one-shot never scheduled
    and its callback never runs. *)
Theorem debounce_flags_track_one_shots :
  forall (es : list Event) (s : Sys),
    run es main = Some s ->
    (user_button_debouncing s = true <->
     exists d, debounce_user_button s = Some d) /\
    (forall d, debounce_user_button s = Some d ->
       clock s <= d <= clock s + milliseconds DEBOUNCE_DELAY_MS) /\
    external_button_debouncing s = false /\
    debounce_external_button s = None /\
    step DebounceExternalExpiry s = None.
Proof.
  intros es s Hrun. destruct (reachable_inv _ _ Hrun) as [HI HI2].
  pose proof (inv_user_flag _ HI) as Hu.
  destruct (inv_external_flag _ HI) as [He1 He2].
  split.
  { rewrite Hu. destruct (debounce_user_button s) as [d|].
    - split; [eauto|congruence].
    - split; [congruence|intros [d Hd]; discriminate]. }
  split.
  { intros d Hd. split; [|exact (inv_debounce_bound _ HI2 d Hd)].
    apply (deadline_not_past s d HI). unfold deadlines. rewrite Hd.
    rewrite !in_app_iff. left. now left. }
  split; [exact He1|]. split; [exact He2|].
  cbn [step]. now rewrite He2.
Qed.

Lemma debounce_flags_track_one_shots_witness :
  run [UserEdge 5000 42] main = Some pressed_example /\
  user_button_debouncing pressed_example = true /\
  debounce_user_button pressed_example = Some 205000 /\
  5000 <= 205000 <= 5000 + milliseconds DEBOUNCE_DELAY_MS.
Proof.
  assert (H : run [UserEdge 5000 42] main = Some pressed_example)
    by (vm_compute; reflexivity).
  pose proof (debounce_flags_track_one_shots _ _ H) as (_ & H2 & _).
  split; [exact H|]. split; [reflexivity|]. split; [reflexivity|].
  exact (H2 205000 eq_refl).
Defined.

(** X3.  Debounce of the user button.  An accepted press at [t0] sets the
    flag and schedules its clearing 200 ms later.  Of the next press of
    that button, at [t1], whatever else happened in between (external
    presses, expiries, ticks): if it comes less than 200 ms after the first
    it is dropped and changes no global; if it comes 200 ms or more after,
    it is accepted, moves the phase by the table and opens a new window. *)
Theorem user_presses_debounced :
  forall (t0 r0 t1 r1 : Z) (mid : list Event) (s0 s1 s2 s3 : Sys),
    accepted (UserEdge t0 r0) s0 = true ->
    step (UserEdge t0 r0) s0 = Some s1 ->
    no_user_edge mid = true ->
    run mid s1 = Some s2 ->
    step (UserEdge t1 r1) s2 = Some s3 ->
    user_button_debouncing s1 = true /\
    debounce_user_button s1 = Some (t0 + milliseconds DEBOUNCE_DELAY_MS) /\
    (t1 - t0 < milliseconds DEBOUNCE_DELAY_MS ->
     accepted (UserEdge t1 r1) s2 = false /\ s3 = set_clock t1 s2) /\
    (milliseconds DEBOUNCE_DELAY_MS <= t1 - t0 ->
     accepted (UserEdge t1 r1) s2 = true /\
     state s3 = next_phase (state s2) /\
     user_button_debouncing s3 = true /\
     debounce_user_button s3 = Some (t1 + milliseconds DEBOUNCE_DELAY_MS)).
Proof.
  intros t0 r0 t1 r1 mid s0 s1 s2 s3 Hacc0 Hstep0 Hno Hrun Hstep1.
  destruct (user_window_open _ _ _ _ Hacc0 Hstep0) as [Hf Hd].
  destruct (user_button_debounce_window _ _ _ _ _ _ _ _ _
              Hacc0 Hstep0 Hno Hrun Hstep1) as [Hacc1 Hdrop].
  split; [exact Hf|]. split; [exact Hd|]. split.
  - intros Hlt.
    assert (Hfalse : accepted (UserEdge t1 r1) s2 = false).
    { rewrite Hacc1. apply Z.leb_gt. exact Hlt. }
    split; [exact Hfalse|exact (Hdrop Hfalse)].
  - intros Hge.
    assert (Htrue : accepted (UserEdge t1 r1) s2 = true).
    { rewrite Hacc1. apply Z.leb_le. exact Hge. }
    destruct (user_window_open _ _ _ _ Htrue Hstep1) as [Hf3 Hd3].
    split; [exact Htrue|]. split; [|split; assumption].
    apply step_UserEdge_inv in Hstep1 as (-> & _).
    rewrite state_on_user_button_press.
    cbn in Htrue. apply negb_true_iff in Htrue.
    change (user_button_debouncing (set_clock t1 s2))
      with (user_button_debouncing s2).
    now rewrite Htrue.
Qed.

Lemma user_presses_debounced_witness :
  step (UserEdge 5000 42) main = Some pressed_example /\
  step (UserEdge 100000 7) pressed_example = Some dropped_press_example /\
  dropped_press_example = set_clock 100000 pressed_example.
Proof.
  assert (H0 : step (UserEdge 5000 42) main = Some pressed_example)
    by (vm_compute; reflexivity).
  assert (H1 : step (UserEdge 100000 7) pressed_example
               = Some dropped_press_example) by (vm_compute; reflexivity).
  pose proof (user_presses_debounced 5000 42 100000 7 [] main
                pressed_example pressed_example dropped_press_example
                eq_refl H0 eq_refl eq_refl H1) as (_ & _ & Hdrop & _).
  split; [exact H0|]. split; [exact H1|].
  apply Hdrop. vm_compute. reflexivity.
Defined.

Lemma tick_once (s s' : Sys) (p d : Z) :
  led_ticker s = Some (p, d) ->
  step LedTick s = Some s' ->
  s' = toggle_led (set_led_ticker (Some (p, d + p)) (set_clock d s)).
Proof.
  intros Hlt Hstep.
  apply step_expiry_inv in Hstep as (p' & d' & Hd & _ & ->).
  rewrite Hlt in Hd. apply Some_eq in Hd. injection Hd as <- <-.
  reflexivity.
Qed.

(** X4.  Blink cadence.  While nothing but ticks happens, the [n+1]-th
    tick comes [n] periods after the first is due; each tick inverts
    [led_state] and copies it to the LED, so after an even number of ticks
    [led_state] is what it was and after an odd number it is inverted; the
    ticks change neither the phase nor the screen nor the two records nor
    the debounce flag. *)
Theorem blink_cadence :
  forall (n : nat) (s s' : Sys) (p d : Z),
    led_ticker s = Some (p, d) ->
    run (repeat LedTick (S n)) s = Some s' ->
    clock s' = d + Z.of_nat n * p /\
    led_ticker s' = Some (p, d + Z.of_nat (S n) * p) /\
    led_state s' = (if Nat.even n then negb (led_state s) else led_state s) /\
    green_led s' = led_state s' /\
    state s' = state s /\ LCD s' = LCD s /\
    reaction_time s' = reaction_time s /\
    fastest_time s' = fastest_time s /\
    user_button_debouncing s' = user_button_debouncing s.
Proof.
  induction n as [|n IH]; intros s s' p d Hlt Hrun.
  - cbn [repeat run] in Hrun.
    destruct (step LedTick s) as [s1|] eqn:Hstep; [|discriminate].
    injection Hrun as <-.
    rewrite (tick_once _ _ _ _ Hlt Hstep), toggle_led_eq.
    cbn [clock led_ticker led_state green_led state LCD reaction_time
         fastest_time user_button_debouncing set_led_ticker set_clock
         Nat.even].
    repeat (split; [try reflexivity; f_equal; f_equal; lia|]). reflexivity.
  - change (repeat LedTick (S (S n))) with (LedTick :: repeat LedTick (S n))
      in Hrun.
    cbn [run] in Hrun.
    destruct (step LedTick s) as [s1|] eqn:Hstep; [|discriminate].
    pose proof (tick_once _ _ _ _ Hlt Hstep) as Hs1.
    assert (Hlt1 : led_ticker s1 = Some (p, d + p))
      by (rewrite Hs1, toggle_led_eq; reflexivity).
    destruct (IH _ _ _ _ Hlt1 Hrun)
      as (Hc & Ht & Hls & Hg & Hst & Hlcd & Hrt & Hft & Hub).
    assert (Hfr : led_state s1 = negb (led_state s) /\ state s1 = state s /\
                  LCD s1 = LCD s /\ reaction_time s1 = reaction_time s /\
                  fastest_time s1 = fastest_time s /\
                  user_button_debouncing s1 = user_button_debouncing s).
    { rewrite Hs1, toggle_led_eq. repeat (split; [reflexivity|]).
      reflexivity. }
    destruct Hfr as (Hls1 & Hst1 & Hlcd1 & Hrt1 & Hft1 & Hub1).
    split; [rewrite Hc; lia|].
    split; [rewrite Ht; f_equal; f_equal; lia|].
    split.
    { rewrite Hls, Hls1. rewrite Nat.even_succ, <- Nat.negb_even.
      destruct (Nat.even n), (led_state s); reflexivity. }
    split; [exact Hg|].
    repeat (split; [congruence|]). congruence.
Qed.

Lemma blink_cadence_witness :
  run (repeat LedTick 3) main = Some blink_example /\
  clock blink_example = 300000 /\
  led_state blink_example = true /\ green_led blink_example = true.
Proof.
  assert (H : run (repeat LedTick 3) main = Some blink_example)
    by (vm_compute; reflexivity).
  pose proof (blink_cadence 2 main blink_example 100000 100000 eq_refl H)
    as (Hc & _ & Hl & Hg & _).
  split; [exact H|]. split; [exact Hc|]. split; [exact Hl|].
  rewrite Hg. exact Hl.
Defined.

(** X5.  A second press of the external button changes nothing that the
    first left, whatever the state before the first: only the clock moves
    to the second press and the idle blink restarts from it.  At the same
    clock value [reset_game] is idempotent. *)
Theorem reset_is_idempotent :
  forall (s : Sys) (t : Z),
    on_external_button_press (set_clock t (on_external_button_press s))
    = set_led_ticker (Some (milliseconds 100, t + milliseconds 100))
        (set_clock t (on_external_button_press s))
    /\ reset_game (reset_game s) = reset_game s.
Proof.
  intros s t. unfold on_external_button_press.
  rewrite !reset_game_eq.
  unfold set_led_ticker, set_clock, Timer.stop, Timer.slicetime.
  cbn [clock LCD debounce_user_button debounce_external_button
       user_button_debouncing external_button_debouncing green_led
       reaction_timer random_delay led_ticker state reaction_time
       fastest_time led_state Timer.running Timer.since Timer.acc].
  rewrite !Z.add_0_r. split; reflexivity.
Qed.

(** X6.  When [main] has run its initialisation with no button edge taken
    before [start_pregame] returned, what the player sees matches the
    phase in every state reached afterwards: the screen is the one the
    phase drew on entry, and in RESULT its two lines show the current
    values of [reaction_time] and [fastest_time], of which the second is
    not above the first; the LED is off in START and on in GAME and, since
    [show_result] leaves it alone, in RESULT. *)
Theorem outputs_match_phase :
  forall (bs : list Boot) (es : list Event) (b0 s : Sys),
    boot_run bs (0%nat, boot) = Some (main_done, b0) ->
    quiet_boot bs = true ->
    run es b0 = Some s ->
    LCD s = screen_of s /\
    (state s = START -> green_led s = false) /\
    (state s = GAME \/ state s = RESULT -> green_led s = true) /\
    (state s = RESULT ->
     fastest_time s <= reaction_time s <= UINT32_MAX) /\
    0 <= fastest_time s <= UINT32_MAX.
Proof.
  intros bs es b0 s Hboot Hq Hrun.
  destruct (started_inv _ _ _ _ Hboot Hq Hrun) as [HI HI2].
  pose proof (inv_led _ HI2) as Hled. unfold steady_led in Hled.
  split; [exact (inv_screen _ HI2)|].
  split; [intros Hst; now rewrite Hst in Hled|].
  split; [intros [Hst|Hst]; now rewrite Hst in Hled|].
  split; [|exact (inv_fastest _ HI)].
  intros Hst. pose proof (inv_best _ HI2 Hst).
  pose proof (inv_reaction _ HI). lia.
Qed.

Lemma outputs_match_phase_witness :
  boot_run (repeat (Resume 0) 9) (0%nat, boot) = Some (main_done, main) /\
  run [UserEdge 5000 42; DebounceUserExpiry; RandomDelayExpiry;
       UserEdge 1397000 7] main = Some result_example /\
  LCD result_example
    = [(40, "current: 350 ms"%string); (60, "Fastest: 350 ms"%string)] /\
  green_led result_example = true.
Proof.
  assert (H0 : boot_run (repeat (Resume 0) 9) (0%nat, boot)
               = Some (main_done, main)) by (vm_compute; reflexivity).
  assert (H : run [UserEdge 5000 42; DebounceUserExpiry; RandomDelayExpiry;
                   UserEdge 1397000 7] main = Some result_example)
    by (vm_compute; reflexivity).
  pose proof (outputs_match_phase _ _ _ _ H0 eq_refl H) as (H1 & _ & H3 & _).
  split; [exact H0|]. split; [exact H|]. split; [rewrite H1; reflexivity|].
  apply H3. right. reflexivity.
Defined.

(** X7.  The press that ends a round is never swallowed by the debounce
    window: the go-delay is at least 1000 ms and the window 200 ms, so in
    every reachable GAME state the flag is clear, and every press of the
    user button arriving there is accepted, completes the round and leads
    to RESULT. *)
Theorem armed_press_always_accepted :
  forall (es : list Event) (s : Sys),
    run es main = Some s ->
    state s = GAME ->
    user_button_debouncing s = false /\
    forall (t r : Z) (s' : Sys),
      step (UserEdge t r) s = Some s' ->
      accepted (UserEdge t r) s = true /\
      completes_round (UserEdge t r) s = true /\
      state s' = RESULT.
Proof.
  intros es s Hrun Hst. destruct (reachable_inv _ _ Hrun) as [HI HI2].
  pose proof (inv_ready _ HI2) as Hrdy. unfold button_ready in Hrdy.
  rewrite Hst in Hrdy. split; [exact Hrdy|].
  intros t r s' Hstep.
  apply step_UserEdge_inv in Hstep as (-> & _).
  cbn [accepted completes_round]. rewrite Hrdy, Hst. cbn.
  split; [reflexivity|]. split; [reflexivity|].
  rewrite state_on_user_button_press.
  change (user_button_debouncing (set_clock t s))
    with (user_button_debouncing s).
  change (state (set_clock t s)) with (state s).
  now rewrite Hrdy, Hst.
Qed.

Lemma armed_press_always_accepted_witness :
  run [UserEdge 5000 42; DebounceUserExpiry; RandomDelayExpiry] main
    = Some armed_example /\
  step (UserEdge 1397000 7) armed_example = Some result_example /\
  state result_example = RESULT.
Proof.
  assert (H : run [UserEdge 5000 42; DebounceUserExpiry; RandomDelayExpiry]
                main = Some armed_example) by (vm_compute; reflexivity).
  assert (H1 : step (UserEdge 1397000 7) armed_example = Some result_example)
    by (vm_compute; reflexivity).
  pose proof (armed_press_always_accepted _ _ H eq_refl) as (_ & Hp).
  destruct (Hp _ _ _ H1) as (_ & _ & Hst).
  split; [exact H|]. split; [exact H1|exact Hst].
Defined.

Lemma waiting_step (e : Event) (s s' : Sys) :
  state s = START -> step e s = Some s' -> state s' = START ->
  random_delay s' = random_delay s.
Proof.
  intros Hst Hstep Hst'.
  destruct e as [t r|t| | | |].
  - apply step_UserEdge_inv in Hstep as (-> & _).
    rewrite state_on_user_button_press in Hst'.
    change (user_button_debouncing (set_clock t s))
      with (user_button_debouncing s) in Hst'.
    change (state (set_clock t s)) with (state s) in Hst'.
    unfold on_user_button_press.
    change (user_button_debouncing (set_clock t s))
      with (user_button_debouncing s).
    destruct (user_button_debouncing s); [reflexivity|].
    rewrite Hst in Hst'. discriminate.
  - apply step_ExternalEdge_inv in Hstep as (-> & _). discriminate.
  - apply step_expiry_inv in Hstep as (d & _ & _ & ->). reflexivity.
  - apply step_expiry_inv in Hstep as (d & _ & _ & ->). reflexivity.
  - apply step_expiry_inv in Hstep as (d & _ & _ & ->).
    rewrite on_random_delay_end_eq in Hst'. discriminate.
  - apply step_expiry_inv in Hstep as (p & d & _ & _ & ->). reflexivity.
Qed.

Lemma run_in_waiting (mid : list Event) :
  forall s s',
    state s = START -> run_in START mid s = Some s' ->
    state s' = START /\ random_delay s' = random_delay s.
Proof.
  induction mid as [|e mid IH]; cbn [run_in]; intros s s' Hst Hrun.
  - injection Hrun as <-. split; [exact Hst|reflexivity].
  - destruct (step e s) as [s1|] eqn:Hstep; [|discriminate].
    destruct (AppState_eqb (state s1) START) eqn:Hg; [|discriminate].
    apply AppState_eqb_eq in Hg.
    destruct (IH _ _ Hg Hrun) as [Hst' Hrd].
    split; [exact Hst'|].
    rewrite Hrd. eapply waiting_step; eauto.
Qed.

(** X8.  The go signal.  When a press is accepted in PREGAME at [t] and the
    phase then stays START until the go-delay expires, GAME is entered
    exactly [rand() % 4000 + 1000] ms after the press, so between 1 and 5
    seconds after it, with the reaction timer started at that very
    instant. *)
Theorem go_signal_timing :
  forall (t r : Z) (mid : list Event) (s0 s1 s2 s3 : Sys),
    state s0 = PREGAME ->
    accepted (UserEdge t r) s0 = true ->
    step (UserEdge t r) s0 = Some s1 ->
    run_in START mid s1 = Some s2 ->
    step RandomDelayExpiry s2 = Some s3 ->
    state s3 = GAME /\
    clock s3 = t + milliseconds (delay r) /\
    t + milliseconds 1000 <= clock s3 < t + milliseconds 5000 /\
    reaction_timer s3 = Timer.mk true (clock s3) 0 /\
    green_led s3 = true.
Proof.
  intros t r mid s0 s1 s2 s3 Hst0 Hacc Hpress Hmid Hgo.
  apply step_UserEdge_inv in Hpress as (-> & _ & _ & Hr).
  cbn in Hacc. apply negb_true_iff in Hacc.
  unfold on_user_button_press in Hmid.
  change (user_button_debouncing (set_clock t s0))
    with (user_button_debouncing s0) in Hmid.
  rewrite Hacc in Hmid. cbv zeta in Hmid.
  change (state (debounce_user_button_attach _ _)) with (state s0) in Hmid.
  rewrite Hst0 in Hmid.
  apply run_in_waiting in Hmid as [Hst2 Hrd]; [|reflexivity].
  change (random_delay (start_game r _))
    with (Some (t + milliseconds (delay r))) in Hrd.
  apply step_expiry_inv in Hgo as (d & Hd & _ & ->).
  rewrite Hrd in Hd. apply Some_eq in Hd. subst d.
  rewrite on_random_delay_end_eq.
  cbn [state clock reaction_timer green_led set_random_delay set_clock].
  pose proof (delay_range r ltac:(lia)) as Hdel.
  split; [reflexivity|]. split; [reflexivity|].
  split; [unfold milliseconds; lia|]. split; reflexivity.
Qed.

Lemma go_signal_timing_witness :
  step (UserEdge 5000 42) main = Some pressed_example /\
  run_in START [DebounceUserExpiry] pressed_example = Some waiting_example /\
  step RandomDelayExpiry waiting_example = Some armed_example /\
  clock armed_example = 5000 + milliseconds (delay 42) /\
  clock armed_example = 1047000.
Proof.
  assert (H0 : step (UserEdge 5000 42) main = Some pressed_example)
    by (vm_compute; reflexivity).
  assert (H1 : run_in START [DebounceUserExpiry] pressed_example
               = Some waiting_example) by (vm_compute; reflexivity).
  assert (H2 : step RandomDelayExpiry waiting_example = Some armed_example)
    by (vm_compute; reflexivity).
  pose proof (go_signal_timing 5000 42 _ main _ _ _ eq_refl eq_refl H0 H1 H2)
    as (_ & Hc & _).
  split; [exact H0|]. split; [exact H1|]. split; [exact H2|].
  split; [exact Hc|reflexivity].
Defined.

(** X9.  The phase changes only as the handlers say: from any state a step
    leaves the phase given by [phase_after], so only an accepted user
    press, an external press and the go-delay callback change it, and the
    debounce callbacks and the blink never do.  When [main] has run its
    initialisation with no button edge taken before [start_pregame]
    returned, the go-delay callback runs only in START in the states
    reached afterwards: every handler that leaves START detaches the delay
    before it returns, so GAME is entered from START only. *)
Theorem phase_changes_only_by_handlers :
  (forall (e : Event) (s s' : Sys),
      step e s = Some s' -> state s' = phase_after e s) /\
  (forall (bs : list Boot) (es : list Event) (b0 s s' : Sys),
      boot_run bs (0%nat, boot) = Some (main_done, b0) ->
      quiet_boot bs = true ->
      run es b0 = Some s ->
      step RandomDelayExpiry s = Some s' ->
      state s = START) /\
  (forall (bs : list Boot) (es : list Event) (e : Event) (b0 s s' : Sys),
      boot_run bs (0%nat, boot) = Some (main_done, b0) ->
      quiet_boot bs = true ->
      run es b0 = Some s ->
      step e s = Some s' ->
      state s' = GAME ->
      state s = GAME \/ (state s = START /\ e = RandomDelayExpiry)).
Proof.
  assert (Hphase : forall e s s', step e s = Some s' ->
                     state s' = phase_after e s).
  { intros e s s' Hstep. destruct e as [t r|t| | | |]; cbn [phase_after].
    - apply step_UserEdge_inv in Hstep as (-> & _).
      exact (state_on_user_button_press r (set_clock t s)).
    - apply step_ExternalEdge_inv in Hstep as (-> & _). reflexivity.
    - apply step_expiry_inv in Hstep as (d & _ & _ & ->). reflexivity.
    - apply step_expiry_inv in Hstep as (d & _ & _ & ->). reflexivity.
    - apply step_expiry_inv in Hstep as (d & _ & _ & ->).
      now rewrite on_random_delay_end_eq.
    - apply step_expiry_inv in Hstep as (p & d & _ & _ & ->). reflexivity. }
  assert (Hgo : forall bs es b0 s s',
                  boot_run bs (0%nat, boot) = Some (main_done, b0) ->
                  quiet_boot bs = true ->
                  run es b0 = Some s ->
                  step RandomDelayExpiry s = Some s' -> state s = START).
  { intros bs es b0 s s' Hboot Hq Hrun Hstep.
    destruct (started_inv _ _ _ _ Hboot Hq Hrun) as [HI _].
    pose proof (inv_phase _ HI) as Hp. unfold phase_inv in Hp.
    apply step_expiry_inv in Hstep as (d & Hd & _).
    destruct (state s); try reflexivity;
      destruct Hp as (Hrd & _); congruence. }
  split; [exact Hphase|]. split; [exact Hgo|].
  intros bs es e b0 s s' Hboot Hq Hrun Hstep Hst'.
  pose proof (Hphase _ _ _ Hstep) as Hph. rewrite Hst' in Hph.
  destruct e as [t r|t| | | |]; cbn [phase_after] in Hph.
  - destruct (user_button_debouncing s); [left; congruence|].
    destruct (state s); discriminate.
  - discriminate.
  - left. congruence.
  - left. congruence.
  - right. split; [eapply Hgo; eauto|reflexivity].
  - left. congruence.
Qed.

Lemma phase_changes_only_by_handlers_witness :
  boot_run (repeat (Resume 0) 9) (0%nat, boot) = Some (main_done, main) /\
  run [UserEdge 5000 42; DebounceUserExpiry] main = Some waiting_example /\
  step RandomDelayExpiry waiting_example = Some armed_example /\
  state waiting_example = START /\
  state armed_example = phase_after RandomDelayExpiry waiting_example.
Proof.
  assert (H0 : boot_run (repeat (Resume 0) 9) (0%nat, boot)
               = Some (main_done, main)) by (vm_compute; reflexivity).
  assert (H : run [UserEdge 5000 42; DebounceUserExpiry] main
              = Some waiting_example) by (vm_compute; reflexivity).
  assert (H2 : step RandomDelayExpiry waiting_example = Some armed_example)
    by (vm_compute; reflexivity).
  split; [exact H0|]. split; [exact H|]. split; [exact H2|].
  split.
  - exact (proj1 (proj2 phase_changes_only_by_handlers)
             _ _ _ _ _ H0 eq_refl H H2).
  - exact (proj1 phase_changes_only_by_handlers _ _ _ H2).
Defined.

Lemma run_in_run (a : AppState) (es : list Event) :
  forall s s', run_in a es s = Some s' -> run es s = Some s'.
Proof.
  induction es as [|e es IH]; cbn [run_in run]; intros s s' Hrun.
  - exact Hrun.
  - destruct (step e s) as [s1|]; [|discriminate].
    destruct (AppState_eqb (state s1) a); [|discriminate].
    now apply IH.
Qed.

Lemma run_in_GAME_armed (es : list Event) :
  forall s, run_in GAME es s = run_armed es s.
Proof.
  induction es as [|e es IH]; cbn [run_in run_armed]; intros s.
  - reflexivity.
  - destruct (step e s) as [s1|]; [|reflexivity].
    destruct (AppState_eqb (state s1) GAME); [apply IH|reflexivity].
Qed.

(** Staying in START, or in GAME, leaves the two records alone. *)
Lemma run_in_records (a : AppState) (es : list Event) :
  a = START \/ a = GAME ->
  forall s s',
    state s = a -> run_in a es s = Some s' ->
    reaction_time s' = reaction_time s /\ fastest_time s' = fastest_time s.
Proof.
  intros Ha. induction es as [|e es IH]; cbn [run_in]; intros s s' Hst Hrun.
  - injection Hrun as <-. split; reflexivity.
  - destruct (step e s) as [s1|] eqn:Hstep; [|discriminate].
    destruct (AppState_eqb (state s1) a) eqn:Hg; [|discriminate].
    apply AppState_eqb_eq in Hg.
    destruct (IH _ _ Hg Hrun) as [Hrt Hft].
    pose proof (records_step _ _ _ Hstep) as Hrec.
    assert (Hsame : reaction_time s1 = reaction_time s /\
                    fastest_time s1 = fastest_time s).
    { destruct e as [t r|t| | | |]; cbn [is_reset completes_round] in Hrec;
        try exact Hrec.
      - destruct (user_button_debouncing s) eqn:Hub; cbn [negb andb] in Hrec;
          [exact Hrec|].
        destruct (AppState_eqb (state s) GAME) eqn:Hgame; [|exact Hrec].
        apply step_UserEdge_inv in Hstep as (-> & _).
        rewrite state_on_user_button_press in Hg.
        change (user_button_debouncing (set_clock t s))
          with (user_button_debouncing s) in Hg.
        change (state (set_clock t s)) with (state s) in Hg.
        rewrite Hub in Hg. apply AppState_eqb_eq in Hgame.
        rewrite Hgame in Hg. cbn in Hg.
        destruct Ha; congruence.
      - apply step_ExternalEdge_inv in Hstep as (-> & _).
        cbn in Hg. destruct Ha; congruence. }
    destruct Hsame. split; congruence.
Qed.

(** X10.  A whole round.  From a reachable PREGAME state, a press accepted
    at [t] starts the wait; if the phase stays START until the go-delay
    expires and then GAME until the next press of the user button, at
    [t'], that press is accepted and ends the round in RESULT with
    [reaction_time] the whole milliseconds between the go signal, at
    [t + (rand() % 4000 + 1000) ms], and [t'], modulo 2^32, and with
    [fastest_time] the smaller of that and of the best before the round. *)
Theorem whole_round :
  forall (es mid1 mid2 : list Event) (t r t' r' : Z)
         (s0 s1 s2 s3 s4 s5 : Sys),
    run es main = Some s0 ->
    state s0 = PREGAME ->
    accepted (UserEdge t r) s0 = true ->
    step (UserEdge t r) s0 = Some s1 ->
    run_in START mid1 s1 = Some s2 ->
    step RandomDelayExpiry s2 = Some s3 ->
    run_in GAME mid2 s3 = Some s4 ->
    step (UserEdge t' r') s4 = Some s5 ->
    accepted (UserEdge t' r') s4 = true /\
    state s5 = RESULT /\
    t + milliseconds (delay r) <= t' /\
    reaction_time s5
      = to_uint32 ((t' - (t + milliseconds (delay r))) / 1000) /\
    fastest_time s5 = Z.min (reaction_time s5) (fastest_time s0) /\
    LCD s5 = screen_of s5.
Proof.
  intros es mid1 mid2 t r t' r' s0 s1 s2 s3 s4 s5
         Hrun Hst0 Hacc Hpress Hmid1 Hgo Hmid2 Hpress'.
  destruct (reachable_inv _ _ Hrun) as [HI0 HJ0].
  pose proof (Inv_step _ _ _ HI0 Hpress) as HI1.
  pose proof (Inv2_step _ _ _ HI0 HJ0 Hpress) as HJ1.
  destruct (Inv_both_run _ _ _ HI1 HJ1 (run_in_run _ _ _ _ Hmid1))
    as [HI2 HJ2].
  pose proof (Inv_step _ _ _ HI2 Hgo) as HI3.
  pose proof (Inv2_step _ _ _ HI2 HJ2 Hgo) as HJ3.
  destruct (Inv_both_run _ _ _ HI3 HJ3 (run_in_run _ _ _ _ Hmid2))
    as [HI4 HJ4].
  pose proof (Inv2_step _ _ _ HI4 HJ4 Hpress') as HJ5.
  (* the press in PREGAME *)
  assert (Hs1 : state s1 = START /\ fastest_time s1 = fastest_time s0 /\
                random_delay s1 = Some (t + milliseconds (delay r))).
  { apply step_UserEdge_inv in Hpress as (-> & _).
    cbn in Hacc. apply negb_true_iff in Hacc.
    unfold on_user_button_press.
    change (user_button_debouncing (set_clock t s0))
      with (user_button_debouncing s0).
    rewrite Hacc. cbv zeta.
    change (state (debounce_user_button_attach _ _)) with (state s0).
    rewrite Hst0. repeat split. }
  destruct Hs1 as (Hst1 & Hft1 & Hrd1).
  (* the wait *)
  destruct (run_in_waiting _ _ _ Hst1 Hmid1) as [Hst2 Hrd2].
  destruct (run_in_records START mid1 (or_introl eq_refl) _ _ Hst1 Hmid1)
    as [_ Hft2].
  (* the go signal *)
  assert (Hs3 : state s3 = GAME /\ fastest_time s3 = fastest_time s2 /\
                clock s3 = t + milliseconds (delay r) /\
                reaction_timer s3 = Timer.mk true (clock s3) 0).
  { apply step_expiry_inv in Hgo as (d & Hd & _ & ->).
    rewrite Hrd2, Hrd1 in Hd. apply Some_eq in Hd. subst d.
    rewrite on_random_delay_end_eq. repeat split. }
  destruct Hs3 as (Hst3 & Hft3 & Hc3 & Htm3).
  (* armed *)
  rewrite run_in_GAME_armed in Hmid2.
  destruct (run_armed_keeps_timer _ _ _ HI3 Hst3 Hmid2)
    as (_ & Hst4 & Hc34 & Htm4 & _).
  rewrite <- run_in_GAME_armed in Hmid2.
  destruct (run_in_records GAME mid2 (or_intror eq_refl) _ _ Hst3 Hmid2)
    as [_ Hft4].
  pose proof (inv_ready _ HJ4) as Hrdy. unfold button_ready in Hrdy.
  rewrite Hst4 in Hrdy.
  (* the press that ends the round *)
  pose proof (records_step _ _ _ Hpress') as Hrec.
  cbn [is_reset completes_round] in Hrec.
  rewrite Hrdy, Hst4 in Hrec. cbn in Hrec.
  apply step_UserEdge_inv in Hpress' as (Hs5 & Hc4 & _).
  assert (Hshow : s5 = show_result
                         (debounce_user_button_attach
                            (milliseconds DEBOUNCE_DELAY_MS)
                            (set_user_button_debouncing true
                               (set_clock t' s4)))).
  { rewrite Hs5. unfold on_user_button_press.
    change (user_button_debouncing (set_clock t' s4))
      with (user_button_debouncing s4).
    rewrite Hrdy. cbv zeta.
    change (state (debounce_user_button_attach _ _)) with (state s4).
    now rewrite Hst4. }
  set (s := debounce_user_button_attach _ _) in Hshow.
  assert (Htm : reaction_timer s = Timer.mk true (clock s3) 0)
    by (subst s; cbn; congruence).
  destruct (reaction_time_show_result s (clock s3) Htm) as (Hrt & _).
  change (clock s) with t' in Hrt.
  rewrite <- Hshow in Hrt.
  split; [cbn [accepted]; now rewrite Hrdy|].
  split; [rewrite Hshow, show_result_eq; reflexivity|].
  split; [lia|].
  split.
  - rewrite Hrt, Hc3. rewrite Z.quot_div_nonneg by lia. reflexivity.
  - split; [rewrite Hrec; congruence|exact (inv_screen _ HJ5)].
Qed.

Lemma whole_round_witness :
  run [] main = Some main /\
  step (UserEdge 5000 42) main = Some pressed_example /\
  run_in START [DebounceUserExpiry] pressed_example = Some waiting_example /\
  step RandomDelayExpiry waiting_example = Some armed_example /\
  step (UserEdge 1397000 7) armed_example = Some result_example /\
  reaction_time result_example = 350 /\
  fastest_time result_example = 350.
Proof.
  assert (H0 : step (UserEdge 5000 42) main = Some pressed_example)
    by (vm_compute; reflexivity).
  assert (H1 : run_in START [DebounceUserExpiry] pressed_example
               = Some waiting_example) by (vm_compute; reflexivity).
  assert (H2 : step RandomDelayExpiry waiting_example = Some armed_example)
    by (vm_compute; reflexivity).
  assert (H3 : step (UserEdge 1397000 7) armed_example = Some result_example)
    by (vm_compute; reflexivity).
  pose proof (whole_round [] [DebounceUserExpiry] [] 5000 42 1397000 7
                main pressed_example waiting_example armed_example
                armed_example result_example
                eq_refl eq_refl eq_refl H0 H1 H2 eq_refl H3)
    as (_ & _ & _ & Hrt & Hft & _).
  split; [reflexivity|]. split; [exact H0|]. split; [exact H1|].
  split; [exact H2|]. split; [exact H3|].
  split; [rewrite Hrt; vm_compute; reflexivity|].
  rewrite Hft, Hrt. vm_compute. reflexivity.
Defined.

Lemma stale_go_step (dg : Z) (e : Event) (s s' : Sys) :
  (exists d, led_ticker s = Some (milliseconds 100, d)) ->
  (state s = PREGAME /\ random_delay s = Some dg \/
   state s = GAME /\ random_delay s = None) ->
  no_edge [e] = true ->
  step e s = Some s' ->
  (exists d, led_ticker s' = Some (milliseconds 100, d)) /\
  (state s' = PREGAME /\ random_delay s' = Some dg \/
   state s' = GAME /\ random_delay s' = None).
Proof.
  intros [d Hlt] Hph Hno Hstep.
  destruct e as [t r|t| | | |]; try discriminate Hno.
  - apply step_expiry_inv in Hstep as (d' & _ & _ & ->).
    split; [exists d; exact Hlt|exact Hph].
  - apply step_expiry_inv in Hstep as (d' & _ & _ & ->).
    split; [exists d; exact Hlt|exact Hph].
  - apply step_expiry_inv in Hstep as (d' & Hd & _ & ->).
    rewrite on_random_delay_end_eq.
    split; [exists d; exact Hlt|]. right. split; reflexivity.
  - apply step_expiry_inv in Hstep as (p & d' & Hd & _ & ->).
    rewrite toggle_led_eq. rewrite Hlt in Hd. apply Some_eq in Hd.
    injection Hd as <- <-.
    split; [eexists; reflexivity|exact Hph].
Qed.

Lemma stale_go_run (dg : Z) (es : list Event) :
  forall s s',
    (exists d, led_ticker s = Some (milliseconds 100, d)) ->
    (state s = PREGAME /\ random_delay s = Some dg \/
     state s = GAME /\ random_delay s = None) ->
    no_edge es = true ->
    run es s = Some s' ->
    (exists d, led_ticker s' = Some (milliseconds 100, d)) /\
    (state s' = PREGAME /\ random_delay s' = Some dg \/
     state s' = GAME /\ random_delay s' = None).
Proof.
  induction es as [|e es IH]; cbn [run]; intros s s' Hlt Hph Hno Hrun.
  - injection Hrun as <-. split; assumption.
  - destruct (step e s) as [s1|] eqn:Hstep; [|discriminate].
    unfold no_edge in Hno. cbn [forallb] in Hno.
    apply andb_true_iff in Hno as [He Hno].
    assert (He1 : no_edge [e] = true)
      by (unfold no_edge; cbn [forallb]; now rewrite He).
    destruct (stale_go_step dg _ _ _ Hlt Hph He1 Hstep) as [Hlt1 Hph1].
    exact (IH _ _ Hlt1 Hph1 Hno Hrun).
Qed.

(** X11.  [start_pregame] does not detach the go-delay (only [reset_game]
    and [detect_cheating] do).  So when it runs after a user press was
    accepted in PREGAME, which is what [main] does if the press is taken
    between the arming of the interrupt (line 72) and the call at line 77,
    the phase is PREGAME again with the go-delay of that press still
    scheduled and the idle blink attached; and as long as no button edge
    follows, the phase stays PREGAME until the stale delay expires and is
    GAME from then on, with the 100 ms blink attached all along. *)
Theorem start_pregame_keeps_go_delay :
  forall (r t' : Z) (s : Sys) (es : list Event) (s3 : Sys),
    state s = PREGAME ->
    user_button_debouncing s = false ->
    let s2 := start_pregame (set_clock t' (on_user_button_press r s)) in
    (forall x : Sys, random_delay (start_pregame x) = random_delay x) /\
    state (on_user_button_press r s) = START /\
    state s2 = PREGAME /\
    random_delay s2 = Some (clock s + milliseconds (delay r)) /\
    led_ticker s2 = Some (milliseconds 100, t' + milliseconds 100) /\
    (no_edge es = true ->
     run es s2 = Some s3 ->
     (exists d, led_ticker s3 = Some (milliseconds 100, d)) /\
     (state s3 = PREGAME /\
      random_delay s3 = Some (clock s + milliseconds (delay r)) \/
      state s3 = GAME /\ random_delay s3 = None)).
Proof.
  intros r t' s es s3 Hst Hub s2.
  assert (Hs1 : on_user_button_press r s
                = start_game r (debounce_user_button_attach
                                  (milliseconds DEBOUNCE_DELAY_MS)
                                  (set_user_button_debouncing true s))).
  { unfold on_user_button_press. rewrite Hub. cbv zeta.
    change (state (debounce_user_button_attach _ _)) with (state s).
    now rewrite Hst. }
  assert (Hs2 : state s2 = PREGAME /\
                random_delay s2 = Some (clock s + milliseconds (delay r)) /\
                led_ticker s2 = Some (milliseconds 100,
                                      t' + milliseconds 100)).
  { subst s2. rewrite Hs1. repeat split. }
  destruct Hs2 as (H1 & H2 & H3).
  split; [reflexivity|].
  split; [rewrite Hs1; reflexivity|].
  split; [exact H1|]. split; [exact H2|]. split; [exact H3|].
  intros Hno Hrun.
  apply (stale_go_run _ es s2 s3); auto.
  eexists. exact H3.
Qed.

Lemma start_pregame_keeps_go_delay_witness :
  boot_run early_boot (0%nat, boot) = Some (main_done, early_start_example) /\
  state early_start_example = PREGAME /\
  random_delay early_start_example = Some 1000010 /\
  run ([LedTick; DebounceUserExpiry] ++ repeat LedTick 9
       ++ [RandomDelayExpiry]) early_start_example
    = Some early_armed_example /\
  state early_armed_example = GAME /\
  exists d, led_ticker early_armed_example = Some (milliseconds 100, d).
Proof.
  assert (H0 : boot_run early_boot (0%nat, boot)
               = Some (main_done, early_start_example))
    by (vm_compute; reflexivity).
  assert (H1 : run ([LedTick; DebounceUserExpiry] ++ repeat LedTick 9
                    ++ [RandomDelayExpiry]) early_start_example
               = Some early_armed_example) by (vm_compute; reflexivity).
  pose proof (start_pregame_keeps_go_delay 0 10
                (set_clock 10 (LCD_Clear boot))
                ([LedTick; DebounceUserExpiry] ++ repeat LedTick 9
                 ++ [RandomDelayExpiry]) early_armed_example
                eq_refl eq_refl) as (_ & _ & _ & _ & _ & Hrun).
  destruct (Hrun eq_refl H1) as [Hlt _].
  split; [exact H0|]. split; [reflexivity|]. split; [reflexivity|].
  split; [exact H1|]. split; [reflexivity|exact Hlt].
Defined.

(** *** Every interleaving of the initialisation with the handlers *)

Lemma WInv_boot : WInv boot.
Proof.
  split.
  - constructor.
  - cbn. unfold UINT32_MAX. lia.
  - cbn. unfold UINT32_MAX. lia.
  - cbn. split; congruence.
  - cbn. split; reflexivity.
  - cbn. discriminate.
  - cbn. discriminate.
  - cbn. discriminate.
  - cbn. exact I.
Qed.

Ltac solve_period :=
  intros ? ? Heq; apply Some_eq in Heq; apply (f_equal fst) in Heq;
  cbn [fst] in Heq; lia.

Lemma WInv_UserEdge (t r : Z) (s : Sys) :
  WInv s -> clock s <= t -> nothing_due t s = true -> 0 <= r ->
  WInv (on_user_button_press r (set_clock t s)).
Proof.
  intros [Hd Hf Hr Hu [He1 He2] Hb Ho Hper Hp] Hc Hn Hr0.
  apply nothing_due_spec in Hn.
  unfold on_user_button_press.
  change (user_button_debouncing (set_clock t s))
    with (user_button_debouncing s).
  destruct (user_button_debouncing s) eqn:Hub.
  - break_sys s. sys_simpl. subst.
    split; sys_simpl; auto.
    + eapply Forall_impl; [|exact Hn]. cbn; intros; lia.
    + intros d Hd'. specialize (Hb d Hd'). lia.
  - cbv zeta.
    change (state (debounce_user_button_attach _ _)) with (state s).
    pose proof (delay_range r Hr0) as Hdel.
    destruct (state s) eqn:Hst;
      [ rewrite start_game_eq | rewrite detect_cheating_eq
      | rewrite show_result_eq | rewrite start_pregame_eq
      | rewrite start_pregame_eq ];
      break_sys s; sys_simpl; subst; cbv zeta; sys_simpl.
    all: try match goal with |- context [to_uint32 ?x] =>
           pose proof (to_uint32_range x); set (to_uint32 x) in * end.
    all: split; sys_simpl; auto; try lia; try discriminate;
      try (split; congruence).
    all: try (intros ? Heq; apply Some_eq in Heq; lia).
    all: try (intros ? ? Heq1 Heq2; apply Some_eq in Heq1, Heq2; lia).
    all: try solve_period.
    all: try (destruct (_ <? _); lia).
    all: try reflexivity.
    all: try (intros ? ? ?; discriminate).
    all: try match goal with
             | Hq : _ /\ _ = None |- _ => destruct Hq as [Hq0 Hp]
             end.
    all: try (rewrite Hp in *).
    all: try reflexivity.
    all: try (intros ? ? ?; discriminate).
    all: try solve_deadlines.
Qed.

Lemma WInv_step (e : Event) (s s' : Sys) :
  WInv s -> step e s = Some s' -> WInv s'.
Proof.
  intros HW Hstep.
  destruct e as [t r|t| | | |].
  - apply step_UserEdge_inv in Hstep as (-> & Hc & Hn & Hr0).
    apply WInv_UserEdge; auto; lia.
  - apply step_ExternalEdge_inv in Hstep as (-> & Hc & Hn).
    destruct HW as [Hd Hf Hr Hu [He1 He2] Hb Ho Hper Hp].
    apply nothing_due_spec in Hn.
    unfold on_external_button_press. rewrite reset_game_eq.
    break_sys s. sys_simpl. subst.
    split; sys_simpl; auto; try (unfold UINT32_MAX; lia); try discriminate;
      try solve_period.
    + solve_deadlines.
    + intros d Hd'. specialize (Hb d Hd'). lia.
  - apply step_expiry_inv in Hstep as (d & Hd & Hear & ->).
    apply earliest_spec in Hear as [Hc Hall].
    destruct HW as [Hdl Hf Hr Hu [He1 He2] Hb Ho Hper Hp].
    break_sys s. sys_simpl. subst.
    split; sys_simpl; auto; try discriminate; try (split; congruence).
    + solve_deadlines.
    + destruct st; auto. destruct Hp as [_ Hp]. split; [reflexivity|exact Hp].
  - apply step_expiry_inv in Hstep as (d & Hd & _).
    destruct HW as [_ _ _ _ [_ He2] _ _ _ _]. congruence.
  - apply step_expiry_inv in Hstep as (d & Hd & Hear & ->).
    apply earliest_spec in Hear as [Hc Hall].
    destruct HW as [Hdl Hf Hr Hu [He1 He2] Hb Ho Hper Hp].
    rewrite on_random_delay_end_eq.
    break_sys s. sys_simpl. subst.
    assert (Hflag : ubd = false).
    { destruct ubd; [|reflexivity].
      destruct dub as [db|]; [|exfalso; apply Hu; auto].
      specialize (Ho db d eq_refl eq_refl).
      cbn [pending app] in Hall. inversion Hall; subst. lia. }
    split; sys_simpl; auto; try discriminate.
    + solve_deadlines.
    + intros d' Hd'. specialize (Hb d' Hd').
      specialize (Ho d' d Hd' eq_refl). lia.
  - apply step_expiry_inv in Hstep as (p & d & Hd & Hear & ->).
    apply earliest_spec in Hear as [Hc Hall].
    destruct HW as [Hdl Hf Hr Hu [He1 He2] Hb Ho Hper Hp].
    rewrite toggle_led_eq.
    pose proof (Hper p d Hd) as Hpos.
    break_sys s. sys_simpl. subst.
    split; sys_simpl; auto.
    + cbn [pending app] in *.
      destruct dub, rdl; cbn [pending app] in *; inv_forall;
        repeat (apply Forall_cons; [lia|]); apply Forall_nil.
    + intros d' Hd'. specialize (Hb d' Hd'). lia.
    + solve_period.
Qed.

Lemma WInv_Resume (t : Z) (pc : nat) (stmt : Sys -> Sys) (s : Sys) :
  WInv s ->
  nth_error main_body pc = Some stmt ->
  edge_allowed t s = true ->
  WInv (stmt (set_clock t s)).
Proof.
  intros [Hd Hf Hr Hu [He1 He2] Hb Ho Hper Hp] Hnth Hall.
  unfold edge_allowed in Hall. apply andb_true_iff in Hall as [Hc Hn].
  apply Z.leb_le in Hc. apply nothing_due_spec in Hn.
  assert (Hpc : (pc < 9)%nat).
  { change 9%nat with (List.length main_body).
    apply nth_error_Some. rewrite Hnth. discriminate. }
  assert (Hcases : pc = 0%nat \/ pc = 1%nat \/ pc = 2%nat \/ pc = 3%nat \/
                   pc = 4%nat \/ pc = 5%nat \/ pc = 6%nat \/ pc = 7%nat \/
                   pc = 8%nat) by lia.
  clear Hpc.
  break_sys s. sys_simpl. subst.
  repeat (destruct Hcases as [Hcases|Hcases]);
    subst pc; injection Hnth as <-;
    (split;
     [ unfold deadlines;
       cbn [clock debounce_user_button debounce_external_button random_delay
            led_ticker set_clock LCD_Clear set_LCD set_state set_green_led
            led_ticker_attach set_led_ticker Ticker_attach
            LCD_DisplayStringAt];
       unfold milliseconds; solve_deadlines
     | exact Hf | exact Hr | exact Hu | split; reflexivity
     | cbn; intros d Hd'; specialize (Hb d Hd'); lia
     | exact Ho
     | cbn; try exact Hper; try solve_period
     | cbn; try exact Hp; try exact I ]).
Qed.

Lemma WInv_boot_step (b : Boot) (c c' : nat * Sys) :
  WInv (snd c) -> boot_step b c = Some c' -> WInv (snd c').
Proof.
  intros HW Hstep. destruct c as [pc s]. destruct b as [t|e];
    cbn [boot_step fst snd] in *.
  - destruct (nth_error main_body pc) as [stmt|] eqn:Hnth; [|discriminate].
    destruct (edge_allowed t s) eqn:Hall; [|discriminate].
    injection Hstep as <-. cbn [snd].
    eapply WInv_Resume; eauto.
  - destruct (armed_at pc e); [|discriminate].
    destruct (step e s) as [s1|] eqn:Hev; [|discriminate].
    injection Hstep as <-. cbn [snd].
    eapply WInv_step; eauto.
Qed.

Lemma WInv_boot_run (bs : list Boot) :
  forall c c', WInv (snd c) -> boot_run bs c = Some c' -> WInv (snd c').
Proof.
  induction bs as [|b bs IH]; cbn [boot_run]; intros c c' HW Hrun.
  - now injection Hrun as <-.
  - destruct (boot_step b c) as [c1|] eqn:Hstep; [|discriminate].
    eauto using WInv_boot_step.
Qed.

(** Once [main] is in its idle loop the configurations are the states of
    [run]: the traces of [run] from a started state are traces of
    [boot_run]. *)
Lemma run_boot_run (es : list Event) :
  forall s s',
    run es s = Some s' ->
    boot_run (map Interrupt es) (main_done, s) = Some (main_done, s').
Proof.
  induction es as [|e es IH]; cbn [run map boot_run]; intros s s' Hrun.
  - now injection Hrun as <-.
  - destruct (step e s) as [s1|] eqn:Hstep; [|discriminate].
    cbn [boot_step fst snd].
    replace (armed_at main_done e) with true by (destruct e; reflexivity).
    rewrite Hstep. now apply IH.
Qed.

(** X12.  Whatever the interleaving of the statements of [main] with the
    handlers and callbacks, button edges during the initialisation
    included, every configuration reached keeps this: the debounce flag of
    the user button is set exactly while its one-shot is scheduled, and
    the one-shot is due within 200 ms; the external button is never
    debounced; a scheduled go-delay comes after the end of an open
    debounce window, so in GAME the flag is clear and every user edge
    arriving there is accepted and leads to RESULT; no go-delay is
    scheduled in GAME, RESULT or CHEATING; both records fit 32 bits. *)
Theorem every_interleaving_keeps :
  forall (bs : list Boot) (pc : nat) (s : Sys),
    boot_run bs (0%nat, boot) = Some (pc, s) ->
    (user_button_debouncing s = true <->
     exists d, debounce_user_button s = Some d) /\
    (forall d, debounce_user_button s = Some d ->
       clock s <= d <= clock s + milliseconds DEBOUNCE_DELAY_MS) /\
    (external_button_debouncing s = false /\
     debounce_external_button s = None) /\
    (forall db dg, debounce_user_button s = Some db ->
       random_delay s = Some dg -> db < dg) /\
    (state s = GAME ->
     user_button_debouncing s = false /\
     forall t r s', step (UserEdge t r) s = Some s' -> state s' = RESULT) /\
    (state s = GAME \/ state s = RESULT \/ state s = CHEATING ->
     random_delay s = None) /\
    0 <= reaction_time s <= UINT32_MAX /\
    0 <= fastest_time s <= UINT32_MAX.
Proof.
  intros bs pc s Hrun.
  pose proof (WInv_boot_run bs (0%nat, boot) (pc, s) WInv_boot Hrun) as HW.
  cbn [snd] in HW.
  destruct HW as [Hd Hf Hr Hu He Hb Ho Hper Hp].
  split.
  { rewrite Hu. destruct (debounce_user_button s) as [d|].
    - split; [eauto|congruence].
    - split; [congruence|intros [d Hd']; discriminate]. }
  split.
  { intros d Hd'. split; [|exact (Hb d Hd')].
    rewrite Forall_forall in Hd. apply Hd. unfold deadlines. rewrite Hd'.
    rewrite !in_app_iff. left. now left. }
  split; [exact He|]. split; [exact Ho|].
  split.
  { intros Hst. rewrite Hst in Hp. destruct Hp as [Hflag _].
    split; [exact Hflag|]. intros t r s' Hstep.
    apply step_UserEdge_inv in Hstep as (-> & _).
    rewrite state_on_user_button_press.
    change (user_button_debouncing (set_clock t s))
      with (user_button_debouncing s).
    change (state (set_clock t s)) with (state s).
    now rewrite Hflag, Hst. }
  split.
  { intros [Hst|[Hst|Hst]]; rewrite Hst in Hp; tauto. }
  split; assumption.
Qed.

Lemma every_interleaving_keeps_witness :
  boot_run disturbed_boot (0%nat, boot)
    = Some (main_done, disturbed_start_example) /\
  user_button_debouncing disturbed_start_example = true /\
  debounce_user_button disturbed_start_example = Some 200010 /\
  external_button_debouncing disturbed_start_example = false.
Proof.
  assert (H : boot_run disturbed_boot (0%nat, boot)
              = Some (main_done, disturbed_start_example))
    by (vm_compute; reflexivity).
  pose proof (every_interleaving_keeps _ _ _ H) as (_ & _ & (He & _) & _).
  split; [exact H|]. split; [reflexivity|]. split; [reflexivity|exact He].
Defined.
